(** * hamrah-ios: the Xcode project patch scripts

    A shallow embedding of [fix_xcode_project.py],
    [configure_share_extension.py] and [validate_implementation.py].

    A file holds bytes, a [string] with one [ascii] per byte.  A text (a
    Python [str]) is held as the UTF-8 bytes of its characters: an ASCII
    character is one byte, every other character two to four bytes of which
    none is an ASCII byte.  Reading a file in text mode checks that its bytes
    are UTF-8 and raises [UnicodeDecodeError] otherwise; the scripts name the
    encoding, or use that of the locale, taken to be UTF-8.  The operations
    on a text that look at its characters ([\s] of a pattern, [str.strip])
    read whole characters; the others ([in], [str.startswith], a literal or
    a negated class of a pattern) give the same result on the bytes.  The
    file system is a finite map from the existing paths to a file with its
    content or a directory.  The patch rules are regular-expression substitutions;
    [Module Re] embeds the fragment of Python's [re] that the patterns of
    the scripts use, with its backtracking (greedy, leftmost) semantics.
    A patch step of [main] is a parameter of the orchestrator, so that a
    step that raises can be put in the place of one that does not. *)

From Stdlib Require Import NArith ZArith Ascii String List Bool Lia.
From stdpp Require Import base gmap strings.

Local Open Scope string_scope.

(** ** Characters and strings *)

Definition chr (n : nat) : string := String (ascii_of_nat n) EmptyString.

(** The characters that cannot be written inside a literal. *)
Definition nl : string := chr 10.
Definition tab : string := chr 9.
Definition cr : string := chr 13.
Definition dq : string := chr 34.

(** Tests on one byte. *)
Definition byte (n : nat) (c : ascii) : bool := (nat_of_ascii c =? n)%nat.

Definition between (lo hi : nat) (c : ascii) : bool :=
  ((lo <=? nat_of_ascii c) && (nat_of_ascii c <=? hi))%nat.

(** [str.isspace], which is also the class [\s] of a [str] pattern.  The
    ASCII white space: TAB LF VT FF CR, FS GS RS US, space. *)
Definition is_space (c : ascii) : bool := between 9 13 c || between 28 32 c.

(** The white space of two bytes, U+0085 and U+00A0, and of three bytes,
    U+1680, U+2000 to U+200A, U+2028, U+2029, U+202F, U+205F and U+3000. *)
Definition is_space2 (c1 c2 : ascii) : bool :=
  byte 194 c1 && (byte 133 c2 || byte 160 c2).

Definition is_space3 (c1 c2 c3 : ascii) : bool :=
  (byte 225 c1 && (byte 154 c2 && byte 128 c3))
  || (byte 226 c1
      && ((byte 128 c2
           && (between 128 138 c3 || byte 168 c3 || byte 169 c3 || byte 175 c3))
          || (byte 129 c2 && byte 159 c3)))
  || (byte 227 c1 && (byte 128 c2 && byte 128 c3)).

(** The number of bytes of the white space character at the start of a
    text, 0 when the text does not start with white space. *)
Definition space_width (s : string) : nat :=
  match s with
  | String c1 s1 =>
      if is_space c1 then 1
      else
        match s1 with
        | String c2 s2 =>
            if is_space2 c1 c2 then 2
            else
              match s2 with
              | String c3 _ => if is_space3 c1 c2 c3 then 3 else 0
              | EmptyString => 0
              end
        | EmptyString => 0
        end
  | EmptyString => 0
  end.

(** [bytes.decode('utf-8')] succeeds: the bytes are well-formed UTF-8 (no
    overlong form, no surrogate, nothing above U+10FFFF). *)
Definition is_continuation (c : ascii) : bool := between 128 191 c.

Definition three_bytes (c1 c2 : ascii) : bool :=
  (byte 224 c1 && between 160 191 c2)
  || (between 225 236 c1 && is_continuation c2)
  || (byte 237 c1 && between 128 159 c2)
  || (between 238 239 c1 && is_continuation c2).

Definition four_bytes (c1 c2 : ascii) : bool :=
  (byte 240 c1 && between 144 191 c2)
  || (between 241 243 c1 && is_continuation c2)
  || (byte 244 c1 && between 128 143 c2).

Fixpoint utf8_valid (s : string) : bool :=
  match s with
  | EmptyString => true
  | String c1 s1 =>
      if between 0 127 c1 then utf8_valid s1
      else
        match s1 with
        | String c2 s2 =>
            if between 194 223 c1 then is_continuation c2 && utf8_valid s2
            else
              match s2 with
              | String c3 s3 =>
                  if three_bytes c1 c2 then is_continuation c3 && utf8_valid s3
                  else
                    match s3 with
                    | String c4 s4 =>
                        four_bytes c1 c2 && is_continuation c3
                        && is_continuation c4 && utf8_valid s4
                    | EmptyString => false
                    end
              | EmptyString => false
              end
        | EmptyString => false
        end
  end.

(** The class [[A-F0-9]]. *)
Definition is_upper_hex (c : ascii) : bool :=
  let n := nat_of_ascii c in
  (((48 <=? n) && (n <=? 57)) || ((65 <=? n) && (n <=? 70)))%nat.

(** The class [[^c]]. *)
Definition is_not (c : ascii) (a : ascii) : bool := negb (Ascii.eqb a c).
Arguments is_not c%_char a%_char.

(** [s.startswith(p)]. *)
Fixpoint starts_with (p s : string) : bool :=
  match p, s with
  | EmptyString, _ => true
  | String a p', String b s' => Ascii.eqb a b && starts_with p' s'
  | String _ _, EmptyString => false
  end.

(** [needle in hay]. *)
Fixpoint contains (needle hay : string) : bool :=
  starts_with needle hay ||
  match hay with
  | EmptyString => false
  | String _ hay' => contains needle hay'
  end.

(** [hay.count(needle)] for a non-empty needle: occurrences counted from
    the left without overlap. *)
Fixpoint count_from (needle hay : string) (skip : nat) : nat :=
  match hay with
  | EmptyString => 0
  | String _ hay' =>
      match skip with
      | S k => count_from needle hay' k
      | O =>
          if starts_with needle hay
          then S (count_from needle hay' (String.length needle - 1))
          else count_from needle hay' 0
      end
  end.

Definition count (needle hay : string) : nat := count_from needle hay 0.

(** [s.lstrip()], [s.rstrip()] and [s.strip()]: the white space
    characters at the start and at the end are left out. *)
Fixpoint lstrip (s : string) : string :=
  match s with
  | EmptyString => EmptyString
  | String c1 s1 =>
      if is_space c1 then lstrip s1
      else
        match s1 with
        | String c2 s2 =>
            if is_space2 c1 c2 then lstrip s2
            else
              match s2 with
              | String c3 s3 => if is_space3 c1 c2 c3 then lstrip s3 else s
              | EmptyString => s
              end
        | EmptyString => s
        end
  end.

(** [s.isspace()] or [s] is empty: white space characters only. *)
Fixpoint all_space (s : string) : bool :=
  match s with
  | EmptyString => true
  | String c1 s1 =>
      if is_space c1 then all_space s1
      else
        match s1 with
        | String c2 s2 =>
            if is_space2 c1 c2 then all_space s2
            else
              match s2 with
              | String c3 s3 => is_space3 c1 c2 c3 && all_space s3
              | EmptyString => false
              end
        | EmptyString => false
        end
  end.

Fixpoint rstrip (s : string) : string :=
  match s with
  | EmptyString => EmptyString
  | String c s' => if all_space s then EmptyString else String c (rstrip s')
  end.

Definition strip (s : string) : string := rstrip (lstrip s).

(** A truth test on a string: [if s:]. *)
Definition nonempty (s : string) : bool :=
  match s with EmptyString => false | _ => true end.

(** The pieces the literals of the scripts are written with: [tabs n] is
    [n] TAB characters, [line n s] is a new line indented by [n] TABs. *)
Definition text (l : list string) : string := String.concat EmptyString l.

Fixpoint tabs (n : nat) : string :=
  match n with
  | O => EmptyString
  | S k => tab +:+ tabs k
  end.

Definition line (n : nat) (s : string) : string := nl +:+ tabs n +:+ s.


(** ** The regular expressions of the scripts *)

Module Re.

(** A pattern is a sequence of items.  The scripts use literals, greedy
    repetitions of one character class ([*] and [+]), one greedy optional
    character ([,?]) and capture groups; a group is a pair of marks, as in
    the compiled form of a pattern.  The classes of the scripts are sets of
    ASCII characters ([[A-F0-9]]), their complements ([[^}]]), which hold
    every character of more than one byte, and the white space [\s], which
    holds characters of one, two and three bytes.  A class of the first two
    kinds is a test on one byte: a repetition of a complement reads a
    character of several bytes byte by byte, and cannot end inside one,
    since the item that follows it in a pattern starts with an ASCII
    character or with white space. *)
Inductive item : Type :=
| Lit (c : ascii)
| Rep (cls : ascii -> bool) (least : nat)
| Space (least : nat)
| Opt (c : ascii)
| Open (g : nat)
| Close (g : nat).

Definition pattern : Type := list item.

Fixpoint lit (s : string) : pattern :=
  match s with
  | EmptyString => []
  | String c s' => Lit c :: lit s'
  end.

Definition star (cls : ascii -> bool) : pattern := [Rep cls 0].
Definition plus (cls : ascii -> bool) : pattern := [Rep cls 1].
Definition star_space : pattern := [Space 0].
Definition group (g : nat) (p : pattern) : pattern :=
  Open g :: (p ++ [Close g])%list.
Definition seq (ps : list pattern) : pattern := List.concat ps.

(** The marks of a match in progress: where each open group started, and
    the span of each closed group, the latest first. *)
Record marks : Type := Marks {
  opened : list (nat * nat);
  spans : list (nat * (nat * nat))
}.

Definition no_marks : marks := Marks [] [].

Fixpoint assoc {A : Type} (g : nat) (l : list (nat * A)) : option A :=
  match l with
  | [] => None
  | (h, a) :: l' => if Nat.eqb g h then Some a else assoc g l'
  end.

Definition open_group (g i : nat) (m : marks) : marks :=
  Marks ((g, i) :: opened m) (spans m).

Definition close_group (g i : nat) (m : marks) : marks :=
  match assoc g (opened m) with
  | Some b => Marks (opened m) ((g, (b, i)) :: spans m)
  | None => m
  end.

(** The state of a match attempt: the text still to read, the number of
    bytes read since the start of the match, the marks. *)
Definition cont : Type := string -> nat -> marks -> option (nat * marks).

(** A greedy repetition: one more character of the class is tried first,
    the rest of the pattern is tried when that fails. *)
Fixpoint rep (cls : ascii -> bool) (k : cont) (least : nat)
    (s : string) (i : nat) (m : marks) : option (nat * marks) :=
  let stop := match least with O => k s i m | S _ => None end in
  match s with
  | EmptyString => stop
  | String c s' =>
      if cls c then
        match rep cls k (Nat.pred least) s' (S i) m with
        | Some r => Some r
        | None => stop
        end
      else stop
  end.

(** A greedy repetition of white space: one more white space character, of
    one, two or three bytes, is tried first. *)
Fixpoint spaces (k : cont) (least : nat)
    (s : string) (i : nat) (m : marks) : option (nat * marks) :=
  let stop := match least with O => k s i m | S _ => None end in
  match s with
  | EmptyString => stop
  | String c1 s1 =>
      if is_space c1 then
        match spaces k (Nat.pred least) s1 (1 + i) m with
        | Some r => Some r
        | None => stop
        end
      else
        match s1 with
        | String c2 s2 =>
            if is_space2 c1 c2 then
              match spaces k (Nat.pred least) s2 (2 + i) m with
              | Some r => Some r
              | None => stop
              end
            else
              match s2 with
              | String c3 s3 =>
                  if is_space3 c1 c2 c3 then
                    match spaces k (Nat.pred least) s3 (3 + i) m with
                    | Some r => Some r
                    | None => stop
                    end
                  else stop
              | EmptyString => stop
              end
        | EmptyString => stop
        end
  end.

Fixpoint run (p : pattern) : cont :=
  match p with
  | [] => fun _ i m => Some (i, m)
  | Lit a :: p' => fun s i m =>
      match s with
      | String b s' => if Ascii.eqb a b then run p' s' (S i) m else None
      | EmptyString => None
      end
  | Rep cls least :: p' => rep cls (run p') least
  | Space least :: p' => spaces (run p') least
  | Opt a :: p' => fun s i m =>
      match s with
      | String b s' =>
          if Ascii.eqb a b then
            match run p' s' (S i) m with
            | Some r => Some r
            | None => run p' s i m
            end
          else run p' s i m
      | EmptyString => run p' s i m
      end
  | Open g :: p' => fun s i m => run p' s i (open_group g i m)
  | Close g :: p' => fun s i m => run p' s i (close_group g i m)
  end.

(** A match object: the text from the start of the match on, the length
    of the match, the spans of its groups. *)
Record rmatch : Type := Match {
  m_src : string;
  m_len : nat;
  m_spans : list (nat * (nat * nat))
}.

(** [pattern.match] at the start of [s]. *)
Definition match_at (p : pattern) (s : string) : option rmatch :=
  match run p s 0 no_marks with
  | Some (e, m) => Some (Match s e (spans m))
  | None => None
  end.

(** [m.group(g)]; group 0 is the whole match. *)
Definition group_of (mt : rmatch) (g : nat) : string :=
  match g with
  | O => substring 0 (m_len mt) (m_src mt)
  | _ =>
      match assoc g (m_spans mt) with
      | Some (b, e) => substring b (e - b) (m_src mt)
      | None => EmptyString
      end
  end.

(** [re.sub(p, repl, s)] with a function as replacement: the text is
    scanned from the left; at a position inside the previous match
    nothing is tried; a match is replaced and the scan goes on after it;
    a character where nothing matches is copied. *)
Fixpoint sub_from (p : pattern) (repl : rmatch -> string)
    (s : string) (skip : nat) : string :=
  match skip with
  | S k =>
      match s with
      | EmptyString => EmptyString
      | String _ s' => sub_from p repl s' k
      end
  | O =>
      match match_at p s with
      | Some mt =>
          repl mt +:+
          match s with
          | EmptyString => EmptyString
          | String c s' =>
              match m_len mt with
              | O => String c (sub_from p repl s' 0)
              | S k => sub_from p repl s' k
              end
          end
      | None =>
          match s with
          | EmptyString => EmptyString
          | String c s' => String c (sub_from p repl s' 0)
          end
      end
  end.

Definition sub (p : pattern) (repl : rmatch -> string) (s : string) : string :=
  sub_from p repl s 0.

(** A replacement template: literal text and group references [\g]. *)
Inductive piece : Type :=
| Text (s : string)
| Ref (g : nat).

Fixpoint expand (t : list piece) (mt : rmatch) : string :=
  match t with
  | [] => EmptyString
  | Text s :: t' => s +:+ expand t' mt
  | Ref g :: t' => group_of mt g +:+ expand t' mt
  end.

(** [re.sub(p, template, s)]. *)
Definition sub_template (p : pattern) (t : list piece) (s : string) : string :=
  sub p (expand t) s.

End Re.

(** ** Files, output and exceptions *)

Module Os.

(** An entry of the file system: a file with its content, or a directory.
    The file system maps each existing path to its entry; the map is flat:
    that the directory of a file exists is not required of it. *)
Inductive entry : Type :=
| File (content : string)
| Dir.

(** The exceptions of the scripts: those of the file operations, that of
    reading as text a file whose bytes are not UTF-8, and the failure of a
    patch step. *)
Inductive exn : Type :=
| FileNotFoundError (path : string)
| IsADirectoryError (path : string)
| UnicodeDecodeError (path : string)
| PatchError (rule : string).

Inductive result (A : Type) : Type :=
| Ok (a : A)
| Raise (e : exn).
Arguments Ok {A} a.
Arguments Raise {A} e.

(** The world of a run: the disk and the lines printed so far (the latest
    last), each line an event of type [E]. *)
Record world (E : Type) : Type := World {
  disk : gmap string entry;
  printed : list E
}.
Arguments World {E} disk printed.
Arguments disk {E} w.
Arguments printed {E} w.

Definition M (E A : Type) : Type := world E -> result A * world E.

Definition ret {E A : Type} (a : A) : M E A := fun w => (Ok a, w).

Definition bind {E A B : Type} (c : M E A) (k : A -> M E B) : M E B :=
  fun w =>
    match c w with
    | (Ok a, w') => k a w'
    | (Raise e, w') => (Raise e, w')
    end.

Definition raise {E A : Type} (e : exn) : M E A := fun w => (Raise e, w).

(** [try: body except Exception as e: handler(e)]. *)
Definition try_except {E A : Type} (body : M E A) (handler : exn -> M E A) : M E A :=
  fun w =>
    match body w with
    | (Ok a, w') => (Ok a, w')
    | (Raise e, w') => handler e w'
    end.

Definition print {E : Type} (line : E) : M E unit :=
  fun w => (Ok tt, World (disk w) (printed w ++ [line])).

(** The value of a pure computation that may raise. *)
Definition lift {E A : Type} (r : result A) : M E A := fun w => (r, w).

Notation "x <- c ;; k" := (bind c (fun x => k))
  (at level 100, c at next level, right associativity).
Notation "c ;; k" := (bind c (fun _ => k))
  (at level 100, right associativity).

(** [os.path.exists(path)]. *)
Definition os_path_exists {E : Type} (path : string) : M E bool :=
  fun w =>
    (Ok (match disk w !! path with Some _ => true | None => false end), w).

(** Reading in text mode translates the line ends [\r\n] and [\r] to
    [\n] (universal newlines); writing in text mode on a POSIX system
    leaves [\n] as it is. *)
Fixpoint universal_newlines (s : string) : string :=
  match s with
  | EmptyString => EmptyString
  | String c s' =>
      if Ascii.eqb c (ascii_of_nat 13) then
        match s' with
        | String d s'' =>
            if Ascii.eqb d (ascii_of_nat 10)
            then String d (universal_newlines s'')
            else String (ascii_of_nat 10) (universal_newlines s')
        | EmptyString => String (ascii_of_nat 10) EmptyString
        end
      else String c (universal_newlines s')
  end.

(** [open(path, 'r', encoding='utf-8').read()]: the bytes are decoded,
    which fails when they are not UTF-8, then the line ends are translated. *)
Definition read_text {E : Type} (path : string) : M E string :=
  fun w =>
    match disk w !! path with
    | Some (File bytes) =>
        if utf8_valid bytes then (Ok (universal_newlines bytes), w)
        else (Raise (UnicodeDecodeError path), w)
    | Some Dir => (Raise (IsADirectoryError path), w)
    | None => (Raise (FileNotFoundError path), w)
    end.

(** [open(path, 'w', encoding='utf-8').write(content)]: the bytes written
    are the UTF-8 bytes of the text. *)
Definition write_text {E : Type} (path content : string) : M E unit :=
  fun w =>
    match disk w !! path with
    | Some Dir => (Raise (IsADirectoryError path), w)
    | _ => (Ok tt, World (<[path := File content]> (disk w)) (printed w))
    end.

(** [os.path.basename(path)]. *)
Fixpoint basename (path : string) : string :=
  match path with
  | EmptyString => EmptyString
  | String _ path' => if contains "/" path then basename path' else path
  end.

Definition ends_with_slash (a : string) : bool :=
  match String.length a with
  | O => false
  | S n => String.eqb (substring n 1 a) "/"
  end.

(** [os.path.join(a, b)]. *)
Definition os_path_join (a b : string) : string :=
  if starts_with "/" b then b
  else if negb (nonempty a) || ends_with_slash a then a +:+ b
  else a +:+ "/" +:+ b.

(** [shutil.copy2(src, dst)]: the bytes of [src] are copied to [dst], or
    into [dst] under the name of [src] when [dst] is a directory. *)
Definition copy2 {E : Type} (src dst : string) : M E unit :=
  fun w =>
    match disk w !! src with
    | None => (Raise (FileNotFoundError src), w)
    | Some Dir => (Raise (IsADirectoryError src), w)
    | Some (File c) =>
        let target :=
          match disk w !! dst with
          | Some Dir => os_path_join dst (basename src)
          | _ => dst
          end in
        match disk w !! target with
        | Some Dir => (Raise (IsADirectoryError target), w)
        | _ => (Ok tt, World (<[target := File c]> (disk w)) (printed w))
        end
    end.

End Os.

(** ** fix_xcode_project.py *)

Module FixXcodeProject.
Import Re Os.

(** *** The project file and its backup *)

(** The lines the script prints. *)
Inductive message : Type :=
| Fixing_configuration
| Project_not_found
| Backed_up (backup_path : string)
| Reading_configuration
| Step (title : string)
| Updated_project_file
| Successfully_fixed
| Error_fixing (e : exn)
| Restoring_backup
| Backup_restored.

Definition project_path : string := "hamrah-ios.xcodeproj/project.pbxproj".

Definition backup_project : M message string :=
  let backup_path := project_path +:+ ".backup" in
  copy2 project_path backup_path ;;
  print (Backed_up backup_path) ;;
  ret backup_path.

Definition read_project_file : M message string := read_text project_path.

Definition write_project_file (content : string) : M message unit :=
  write_text project_path content ;;
  print Updated_project_file.

(** *** generate_uuid *)

(** [int.from_bytes(bs, 'big')]. *)
Definition int_from_bytes (bs : list Byte.byte) : N :=
  fold_left (fun acc b => (acc * 256 + Byte.to_N b)%N) bs 0%N.

(** The number of [uuid.UUID(bytes=bs, version=4)]: the variant bits are set
    to RFC 4122, the version bits to 4. *)
Definition uuid4_int (bs : list Byte.byte) : N :=
  let int := int_from_bytes bs in
  let int := N.ldiff int (N.shiftl 0xc000 48) in
  let int := N.lor int (N.shiftl 0x8000 48) in
  let int := N.ldiff int (N.shiftl 0xf000 64) in
  N.lor int (N.shiftl 4 76).

Definition hex_digit (d : N) : ascii :=
  match String.get (N.to_nat d) "0123456789abcdef" with
  | Some c => c
  | None => "0"%char
  end.

(** The hexadecimal digits of [n], the most significant first, in front of
    [acc]; a number of [k] bits has at most [k] digits. *)
Fixpoint hex_digits (fuel : nat) (n : N) (acc : string) : string :=
  match fuel with
  | O => acc
  | S fuel' =>
      let acc' := String (hex_digit (n mod 16)) acc in
      if (n / 16 =? 0)%N then acc' else hex_digits fuel' (n / 16) acc'
  end.

Fixpoint zeros (n : nat) : string :=
  match n with
  | O => EmptyString
  | S k => String "0"%char (zeros k)
  end.

(** ['%032x' % n]: at least 32 digits, padded with zeros on the left. *)
Definition format_032x (n : N) : string :=
  let digits := hex_digits (S (N.to_nat (N.log2 n))) n EmptyString in
  zeros (32 - String.length digits) +:+ digits.

(** [s.upper()] on the characters of ASCII. *)
Definition upper_char (c : ascii) : ascii :=
  let n := nat_of_ascii c in
  if ((97 <=? n) && (n <=? 122))%nat then ascii_of_nat (n - 32) else c.

Fixpoint upper (s : string) : string :=
  match s with
  | EmptyString => EmptyString
  | String c s' => String (upper_char c) (upper s')
  end.

(** [uuid.uuid4().hex[:24].upper()], as a function of the 16 bytes that
    [os.urandom] returns. *)
Definition generate_uuid (urandom : list Byte.byte) : string :=
  upper (substring 0 24 (format_032x (uuid4_int urandom))).

(** *** The canonical build settings of the ShareExtension target *)

Definition shareext_settings : string :=
  text [
    line 4 "ASSETCATALOG_COMPILER_GENERATE_SWIFT_ASSET_SYMBOL_EXTENSIONS = YES;";
    line 4 "CLANG_ANALYZER_NONNULL = YES;";
    line 4 "CLANG_ANALYZER_NUMBER_OBJECT_CONVERSION = YES_AGGRESSIVE;";
    line 4 (text ["CLANG_CXX_LANGUAGE_STANDARD = "; dq; "gnu++20"; dq; ";"]);
    line 4 "CLANG_ENABLE_MODULES = YES;";
    line 4 "CLANG_ENABLE_OBJC_ARC = YES;";
    line 4 "CLANG_ENABLE_OBJC_WEAK = YES;";
    line 4 "CLANG_WARN_BLOCK_CAPTURE_AUTORELEASING = YES;";
    line 4 "CLANG_WARN_BOOL_CONVERSION = YES;";
    line 4 "CLANG_WARN_COMMA = YES;";
    line 4 "CLANG_WARN_CONSTANT_CONVERSION = YES;";
    line 4 "CLANG_WARN_DEPRECATED_OBJC_IMPLEMENTATIONS = YES;";
    line 4 "CLANG_WARN_DIRECT_OBJC_ISA_USAGE = YES_ERROR;";
    line 4 "CLANG_WARN_DOCUMENTATION_COMMENTS = YES;";
    line 4 "CLANG_WARN_EMPTY_BODY = YES;";
    line 4 "CLANG_WARN_ENUM_CONVERSION = YES;";
    line 4 "CLANG_WARN_INFINITE_RECURSION = YES;";
    line 4 "CLANG_WARN_INT_CONVERSION = YES;";
    line 4 "CLANG_WARN_NON_LITERAL_NULL_CONVERSION = YES;";
    line 4 "CLANG_WARN_OBJC_IMPLICIT_RETAIN_SELF = YES;";
    line 4 "CLANG_WARN_OBJC_LITERAL_CONVERSION = YES;";
    line 4 "CLANG_WARN_OBJC_ROOT_CLASS = YES_ERROR;";
    line 4 "CLANG_WARN_QUOTED_INCLUDE_IN_FRAMEWORK_HEADER = YES;";
    line 4 "CLANG_WARN_RANGE_LOOP_ANALYSIS = YES;";
    line 4 "CLANG_WARN_STRICT_PROTOTYPES = YES;";
    line 4 "CLANG_WARN_SUSPICIOUS_MOVE = YES;";
    line 4 "CLANG_WARN_UNGUARDED_AVAILABILITY = YES_AGGRESSIVE;";
    line 4 "CLANG_WARN_UNREACHABLE_CODE = YES;";
    line 4 "CLANG_WARN_UNUSUED_VARIABLE = YES;";
    line 4 (text ["CODE_SIGN_ENTITLEMENTS = "; dq; "ShareExtension/Sources/ShareExtension.entitlements"; dq; ";"]);
    line 4 "CODE_SIGN_STYLE = Automatic;";
    line 4 "CURRENT_PROJECT_VERSION = 1;";
    line 4 (text ["DEVELOPMENT_TEAM = "; dq; dq; ";"]);
    line 4 "ENABLE_STRICT_OBJC_MSGSEND = YES;";
    line 4 "GCC_C_LANGUAGE_STANDARD = gnu17;";
    line 4 "GCC_NO_COMMON_BLOCKS = YES;";
    line 4 "GCC_WARN_64_TO_32_BIT_CONVERSION = YES;";
    line 4 "GCC_WARN_ABOUT_RETURN_TYPE = YES_ERROR;";
    line 4 "GCC_WARN_UNDECLARED_SELECTOR = YES;";
    line 4 "GCC_WARN_UNINITIALIZED_AUTOS = YES_AGGRESSIVE;";
    line 4 "GCC_WARN_UNUSED_FUNCTION = YES;";
    line 4 "GCC_WARN_UNUSED_VARIABLE = YES;";
    line 4 "GENERATE_INFOPLIST_FILE = YES;";
    line 4 (text ["INFOPLIST_FILE = "; dq; "ShareExtension/Sources/Info.plist"; dq; ";"]);
    line 4 (text ["INFOPLIST_KEY_CFBundleDisplayName = "; dq; "Hamrah Share"; dq; ";"]);
    line 4 (text ["INFOPLIST_KEY_NSHumanReadableCopyright = "; dq; dq; ";"]);
    line 4 "IPHONEOS_DEPLOYMENT_TARGET = 17.0;";
    line 4 "LD_RUNPATH_SEARCH_PATHS = (";
    line 5 (text [dq; "$(inherited)"; dq; ","]);
    line 5 (text [dq; "@executable_path/Frameworks"; dq; ","]);
    line 5 (text [dq; "@executable_path/../../Frameworks"; dq; ","]);
    line 4 ");";
    line 4 "MACOSX_DEPLOYMENT_TARGET = 14.0;";
    line 4 "MARKETING_VERSION = 1.0;";
    line 4 "MTL_ENABLE_DEBUG_INFO = INCLUDE_SOURCE;";
    line 4 "MTL_FAST_MATH = YES;";
    line 4 (text ["PRODUCT_BUNDLE_IDENTIFIER = "; dq; "app.hamrah.ios.ShareExtension"; dq; ";"]);
    line 4 (text ["PRODUCT_NAME = "; dq; "$(TARGET_NAME)"; dq; ";"]);
    line 4 "SKIP_INSTALL = YES;";
    line 4 (text ["SUPPORTED_PLATFORMS = "; dq; "iphoneos iphonesimulator macosx"; dq; ";"]);
    line 4 "SWIFT_EMIT_LOC_STRINGS = YES;";
    line 4 "SWIFT_VERSION = 5.0;";
    line 4 (text ["TARGETED_DEVICE_FAMILY = "; dq; "1,2"; dq; ";"])
  ].

Definition debug_settings : string :=
  text [
    shareext_settings;
    line 4 "DEBUG_INFORMATION_FORMAT = dwarf;";
    line 4 "ENABLE_TESTABILITY = YES;";
    line 4 "GCC_DYNAMIC_NO_PIC = NO;";
    line 4 "GCC_OPTIMIZATION_LEVEL = 0;";
    line 4 "GCC_PREPROCESSOR_DEFINITIONS = (";
    line 5 (text [dq; "DEBUG=1"; dq; ","]);
    line 5 (text [dq; "$(inherited)"; dq; ","]);
    line 4 ");";
    line 4 "MTL_ENABLE_DEBUG_INFO = INCLUDE_SOURCE;";
    line 4 "ONLY_ACTIVE_ARCH = YES;";
    line 4 (text ["SWIFT_ACTIVE_COMPILATION_CONDITIONS = "; dq; "DEBUG $(inherited)"; dq; ";"]);
    line 4 (text ["SWIFT_OPTIMIZATION_LEVEL = "; dq; "-Onone"; dq; ";"])
  ].

Definition release_settings : string :=
  text [
    shareext_settings;
    line 4 "COPY_PHASE_STRIP = NO;";
    line 4 (text ["DEBUG_INFORMATION_FORMAT = "; dq; "dwarf-with-dsym"; dq; ";"]);
    line 4 "ENABLE_NS_ASSERTIONS = NO;";
    line 4 "MTL_ENABLE_DEBUG_INFO = NO;";
    line 4 "SWIFT_COMPILATION_MODE = wholemodule;"
  ].

(** *** fix_shareextension_target_settings *)

Definition settings_block_pattern (anchor : string) : pattern :=
  seq [ group 1 (seq [ lit anchor; plus (is_not "}"); lit "buildSettings";
                       star_space; lit "="; star_space; lit "{" ]);
        group 2 (plus (is_not "}"));
        group 3 (lit "};") ].

Definition debug_config_pattern : pattern := settings_block_pattern "5FEXTDBG0001".
Definition release_config_pattern : pattern := settings_block_pattern "5FEXTREL0001".

Definition fix_shareextension_target_settings (content : string) : string :=
  let content :=
    sub_template debug_config_pattern
      [Ref 1; Text (debug_settings +:+ line 3 EmptyString); Ref 3] content in
  let content :=
    sub_template release_config_pattern
      [Ref 1; Text (release_settings +:+ line 3 EmptyString); Ref 3] content in
  content.

(** *** fix_file_references *)

Definition patterns_replacements : list (pattern * string) :=
  [ (lit "hamrah-ios/ShareExtension/ShareViewController.swift",
     "ShareExtension/Sources/ShareViewController.swift");
    (lit "hamrah-ios/ShareExtension/Info.plist",
     "ShareExtension/Sources/Info.plist");
    (lit "hamrah-ios/ShareExtension/Utilities/ShareExtensionDataStack.swift",
     "ShareExtension/Sources/Utilities/ShareExtensionDataStack.swift") ].

Definition fix_file_references (content : string) : string :=
  fold_left (fun content pr => sub_template (fst pr) [Text (snd pr)] content)
    patterns_replacements content.

(** *** add_embedded_extension *)

(** The list [name = ( ... );] of the main app target. *)
Definition main_target_list_pattern (name : string) : pattern :=
  seq [ group 1 (seq [ lit "3AC7BF752E4900DF00D7AA35"; plus (is_not "{"); lit "{";
                       plus (is_not "}"); lit name;
                       star_space; lit "="; star_space; lit "(" ]);
        group 2 (star (is_not ")"));
        lit ");" ].

Definition main_target_pattern : pattern := main_target_list_pattern "dependencies".

Definition add_dependency (mt : rmatch) : string :=
  let dependencies := strip (group_of mt 2) in
  if nonempty dependencies then
    text [ group_of mt 1; dependencies; ",";
           line 4 "5FEXTDEP0001 /* PBXTargetDependency */,"; line 3 ");" ]
  else
    text [ group_of mt 1;
           line 4 "5FEXTDEP0001 /* PBXTargetDependency */,"; line 3 ");" ].

Definition dependency_section : string :=
  text [
    tabs 2;
    "5FEXTDEP0001 /* PBXTargetDependency */ = {";
    line 3 "isa = PBXTargetDependency;";
    line 3 "target = 5FEXTTGT0001 /* HamrahShare */;";
    line 3 "targetProxy = 5FEXTPRX0001 /* PBXContainerItemProxy */;";
    line 2 "};"
  ].

Definition proxy_section : string :=
  text [
    tabs 2;
    "5FEXTPRX0001 /* PBXContainerItemProxy */ = {";
    line 3 "isa = PBXContainerItemProxy;";
    line 3 "containerPortal = 3AC7BF6E2E4900DF00D7AA35 /* Project object */;";
    line 3 "proxyType = 1;";
    line 3 "remoteGlobalIDString = 5FEXTTGT0001;";
    line 3 "remoteInfo = HamrahShare;";
    line 2 "};"
  ].

Definition embed_phase_pattern : pattern := main_target_list_pattern "buildPhases".

Definition add_embed_phase (mt : rmatch) : string :=
  let phases := strip (group_of mt 2) in
  if negb (contains "5FEXTBED0001" phases) then
    if nonempty phases then
      text [ group_of mt 1; phases; ",";
             line 4 "5FEXTBED0001 /* Embed App Extensions */,"; line 3 ");" ]
    else
      text [ group_of mt 1;
             line 4 "5FEXTBED0001 /* Embed App Extensions */,"; line 3 ");" ]
  else group_of mt 0.

Definition embed_section : string :=
  text [
    tabs 2;
    "5FEXTBED0001 /* Embed App Extensions */ = {";
    line 3 "isa = PBXCopyFilesBuildPhase;";
    line 3 "buildActionMask = 2147483647;";
    line 3 (text ["dstPath = "; dq; dq; ";"]);
    line 3 "dstSubfolderSpec = 13;";
    line 3 "files = (";
    line 4 "5FEXTBLD0001 /* HamrahShare.appex in Embed App Extensions */,";
    line 3 ");";
    line 3 (text ["name = "; dq; "Embed App Extensions"; dq; ";"]);
    line 3 "runOnlyForDeploymentPostprocessing = 0;";
    line 2 "};"
  ].

Definition build_file_section : string :=
  text [
    tabs 2;
    "5FEXTBLD0001 /* HamrahShare.appex in Embed App Extensions */ = {";
    line 3 "isa = PBXBuildFile;";
    line 3 "fileRef = 5FEXTPRD0001 /* HamrahShare.appex */;";
    line 3 "settings = {ATTRIBUTES = (RemoveHeadersOnCopy, ); };";
    line 2 "};"
  ].

(** The line [/* End <kind> section */] that closes a section, as group 1. *)
Definition section_end_pattern (kind : string) : pattern :=
  group 1 (lit ("/* End " +:+ kind +:+ " section */")).

(** [re.sub(end_pattern, section + '\n' + r'\1', content)]. *)
Definition insert_before_end (kind section content : string) : string :=
  sub_template (section_end_pattern kind) [Text (section +:+ nl); Ref 1] content.

Definition add_embedded_extension (content : string) : string :=
  let content := sub main_target_pattern add_dependency content in
  let content :=
    if negb (contains "5FEXTDEP0001" content) then
      let content := insert_before_end "PBXTargetDependency" dependency_section content in
      if negb (contains "5FEXTPRX0001" content) then
        insert_before_end "PBXContainerItemProxy" proxy_section content
      else content
    else content in
  let content := sub embed_phase_pattern add_embed_phase content in
  let content :=
    if negb (contains "5FEXTBED0001" content) then
      let content := insert_before_end "PBXCopyFilesBuildPhase" embed_section content in
      if negb (contains "5FEXTBLD0001" content) then
        insert_before_end "PBXBuildFile" build_file_section content
      else content
    else content in
  content.

(** *** remove_shareextension_from_main_app_resources *)

(** An entry [<id> /* <name> in Resources */,] with the white space around
    it, up to the end of its line. *)
Definition resources_entry_pattern (name : string) : pattern :=
  seq [ star_space; plus is_upper_hex; star_space; lit "/*";
        star_space; lit name; star_space; lit "in";
        star_space; lit "Resources"; star_space; lit "*/";
        [Opt ","]; star_space; lit nl ].

Definition shareext_info_pattern : pattern := resources_entry_pattern "Info.plist".
Definition shareext_dir_pattern : pattern := resources_entry_pattern "ShareExtension".

Definition remove_shareextension_from_main_app_resources (content : string) : string :=
  let content := sub_template shareext_info_pattern [Text EmptyString] content in
  let content := sub_template shareext_dir_pattern [Text EmptyString] content in
  content.

(** *** fix_file_system_sync_groups *)

Definition sync_group_pattern : pattern :=
  seq [ group 1 (seq [ lit "5FMAINGRP0001"; plus (is_not "{"); lit "{";
                       plus (is_not "}"); lit "exceptions";
                       star_space; lit "="; star_space; lit "(";
                       star (is_not ")"); lit "membershipExceptions";
                       star_space; lit "="; star_space; lit "(" ]);
        group 2 (star (is_not ")"));
        lit ");" ].

Definition update_exceptions (mt : rmatch) : string :=
  let exceptions := strip (group_of mt 2) in
  if negb (contains "ShareExtension" exceptions) then
    if nonempty exceptions then
      text [ group_of mt 1; exceptions; ",";
             line 4 (text [dq; "ShareExtension"; dq; ","]); line 3 ");" ]
    else
      text [ group_of mt 1;
             line 4 (text [dq; "ShareExtension"; dq; ","]); line 3 ");" ]
  else group_of mt 0.

Definition fix_file_system_sync_groups (content : string) : string :=
  sub sync_group_pattern update_exceptions content.

(** *** main *)

(** A patch step as [main] calls it: the line printed before it and the
    function from text to text, which may raise. *)
Definition step : Type := string * (string -> result string).

Fixpoint run_steps (steps : list step) (content : string) : M message string :=
  match steps with
  | [] => ret content
  | (title, rule) :: steps' =>
      print (Step title) ;;
      content <- lift (rule content) ;;
      run_steps steps' content
  end.

(** The [try] block of [main] for any list of patch steps: backup, read,
    patch in memory, write. *)
Definition try_block (steps : list step) : M message bool :=
  backup_project ;;
  print Reading_configuration ;;
  content <- read_project_file ;;
  content <- run_steps steps content ;;
  write_project_file content ;;
  print Successfully_fixed ;;
  ret true.

(** The [except Exception as e] block of [main]. *)
Definition except_block (e : exn) : M message bool :=
  print (Error_fixing e) ;;
  print Restoring_backup ;;
  saved <- os_path_exists "hamrah-ios.xcodeproj/project.pbxproj.backup" ;;
  (if saved then
     copy2 "hamrah-ios.xcodeproj/project.pbxproj.backup"
           "hamrah-ios.xcodeproj/project.pbxproj" ;;
     print Backup_restored
   else ret tt) ;;
  ret false.

Definition main_with (steps : list step) : M message bool :=
  print Fixing_configuration ;;
  found <- os_path_exists "hamrah-ios.xcodeproj" ;;
  if negb found then
    print Project_not_found ;;
    ret false
  else
    try_except (try_block steps) except_block.

(** The five patch steps of the script, in the order of [main]; none of them
    raises. *)
Definition fixes : list step :=
  [ ("Fixing ShareExtension target settings...",
     fun content => Ok (fix_shareextension_target_settings content));
    ("Fixing file references...",
     fun content => Ok (fix_file_references content));
    ("Adding ShareExtension as embedded extension...",
     fun content => Ok (add_embedded_extension content));
    ("Removing ShareExtension resources from main app...",
     fun content => Ok (remove_shareextension_from_main_app_resources content));
    ("Fixing file system sync groups...",
     fun content => Ok (fix_file_system_sync_groups content)) ].

Definition main : M message bool := main_with fixes.

(** The text that [main] writes for the text that it read. *)
Definition apply_fixes (content : string) : string :=
  let content := fix_shareextension_target_settings content in
  let content := fix_file_references content in
  let content := add_embedded_extension content in
  let content := remove_shareextension_from_main_app_resources content in
  let content := fix_file_system_sync_groups content in
  content.

(** The exit status of a Python process: 0 when the module body ends,
    1 when an exception is not caught. *)
Definition exit_status {A : Type} (r : result A) : N :=
  match r with
  | Ok _ => 0
  | Raise _ => 1
  end.

(** [if __name__ == "__main__": main()]: the value of [main] is dropped. *)
Definition script_with (steps : list step) (w : world message) : N * world message :=
  let (r, w') := main_with steps w in (exit_status r, w').

Definition script : world message -> N * world message := script_with fixes.

End FixXcodeProject.

(** ** configure_share_extension.py *)

Module ConfigureShareExtension.
Import Os.

(** The lines [update_project_configuration] prints; the manual steps that
    follow the backup are one event. *)
Inductive message : Type :=
| Could_not_find (path : string)
| Backed_up_original (backup_path : string)
| Update_completed.

(** [project_dir] is the directory of the script.  The settings text that
    the function builds in [shareext_config] is never used. *)
Definition update_project_configuration (project_dir : string) : M message bool :=
  let pbxproj_path :=
    os_path_join (os_path_join project_dir "hamrah-ios.xcodeproj") "project.pbxproj" in
  found <- os_path_exists pbxproj_path ;;
  if negb found then
    print (Could_not_find pbxproj_path) ;;
    ret false
  else
    content <- read_text pbxproj_path ;;
    let backup_path := pbxproj_path +:+ ".backup" in
    write_text backup_path content ;;
    print (Backed_up_original backup_path) ;;
    print Update_completed ;;
    ret true.

End ConfigureShareExtension.

(** ** configure_share_extension.py: the property lists and [main] *)

Module ConfigureScript.
Import Os.

(** A value of a property list as [plistlib] loads it: a string, an integer,
    a boolean, an array, a dictionary, or a value of another kind (a real
    number, data, a date, a UID), which is neither a container of strings
    nor a mapping.  The value is a tree, as that of an XML property list
    always is: a binary property list that refers to one container from two
    places is outside this model. *)
#[warnings="-register-all"]
Inductive plist : Type :=
| PString (s : string)
| PInteger (n : Z)
| PBool (b : bool)
| POther (kind payload : string)
| PArray (l : list plist)
| PDict (d : gmap string plist).

(** The exceptions of this script: those of the file operations, that of
    [plistlib.load] on bytes that are no property list, that of
    [plistlib.dump] on a value it cannot write, and the errors of an
    operation on a value of the wrong type. *)
Inductive error : Type :=
| OsError (e : exn)
| LoadError (path : string)
| DumpError (path : string)
| TypeError
| AttributeError.

(** What [plistlib.dump] writes for a value: all of its bytes, or the bytes
    written before the value that it cannot write (a UID, a string with a
    control character) raises. *)
Inductive dumped : Type :=
| Dumped (bytes : string)
| Partial (bytes : string).

Inductive outcome (A : Type) : Type :=
| Return (a : A)
| Raised (e : error).
Arguments Return {A} a.
Arguments Raised {A} e.

(** The lines the script prints; [Project] is a line of
    [update_project_configuration]. *)
Inductive message : Type :=
| Configuring
| Missing_required_files
| Missing_file (file_path : string)
| All_required_present
| Ensure_files_in_place
| Info_plist_not_found (path : string)
| Updated_info_plist (path : string)
| Failed_to_update_info_plist
| Checking_main_app
| App_group_present
| App_group_missing
| Entitlements_not_found
| Project (m : ConfigureShareExtension.message)
| Configuration_completed.

Definition C (A : Type) : Type := world message -> outcome A * world message.

Definition creturn {A : Type} (a : A) : C A := fun w => (Return a, w).

Definition cbind {A B : Type} (c : C A) (k : A -> C B) : C B :=
  fun w =>
    match c w with
    | (Return a, w') => k a w'
    | (Raised e, w') => (Raised e, w')
    end.

Definition craise {A : Type} (e : error) : C A := fun w => (Raised e, w).

Definition cprint (line : message) : C unit :=
  fun w => (Return tt, World (disk w) (printed w ++ [line])).

Definition cexists (path : string) : C bool :=
  fun w => (Return (match disk w !! path with Some _ => true | None => false end), w).

(** A pure computation that may raise. *)
Definition of_sum {A : Type} (r : error + A) : C A :=
  fun w => (match r with inr a => Return a | inl e => Raised e end, w).

(** A call of [update_project_configuration], which prints its own lines. *)
Definition of_update {A : Type} (c : M ConfigureShareExtension.message A) : C A :=
  fun w =>
    let (r, w') := c (World (disk w) []) in
    (match r with Ok a => Return a | Raise e => Raised (OsError e) end,
     World (disk w') (printed w ++ map Project (printed w'))).

Notation "x <~ c ;; k" := (cbind c (fun x => k))
  (at level 100, c at next level, right associativity).
Notation "c ;;; k" := (cbind c (fun _ => k))
  (at level 100, right associativity).

(** [plistlib] is not part of the scripts: [loads] is the parser of the
    bytes of a file ([None] when they are no property list), [dumps] the
    serialiser. *)
Section Plistlib.
Variable loads : string -> option plist.
Variable dumps : plist -> dumped.

(** [with open(path, 'rb') as f: plistlib.load(f)]. *)
Definition load_plist (path : string) : C plist :=
  fun w =>
    match disk w !! path with
    | Some (File bytes) =>
        match loads bytes with
        | Some value => (Return value, w)
        | None => (Raised (LoadError path), w)
        end
    | Some Dir => (Raised (OsError (IsADirectoryError path)), w)
    | None => (Raised (OsError (FileNotFoundError path)), w)
    end.

(** [with open(path, 'wb') as f: plistlib.dump(value, f)]: the file is
    truncated when it is opened, and holds what was written when the block
    is left, also by an exception. *)
Definition dump_plist (path : string) (value : plist) : C unit :=
  fun w =>
    match disk w !! path with
    | Some Dir => (Raised (OsError (IsADirectoryError path)), w)
    | _ =>
        match dumps value with
        | Dumped bytes =>
            (Return tt, World (<[path := File bytes]> (disk w)) (printed w))
        | Partial bytes =>
            (Raised (DumpError path), World (<[path := File bytes]> (disk w)) (printed w))
        end
    end.

(** [value[key] = item]: only a dictionary takes an item under a string. *)
Definition set_item (key : string) (item value : plist) : error + plist :=
  match value with
  | PDict d => inr (PDict (<[key := item]> d))
  | _ => inl TypeError
  end.

(** [key not in d] followed by [d[key] = {}], then [d[key]], for a
    dictionary [d]. *)
Definition setdefault_dict (key : string) (d : gmap string plist) : plist :=
  match d !! key with
  | Some value => value
  | None => PDict empty
  end.

(** The assignments of [update_info_plist] to the [NSExtensionAttributes]
    dictionary. *)
Definition update_attributes (attributes : plist) : error + plist :=
  match set_item "NSExtensionActivationSupportsWebURLWithMaxCount" (PInteger 1) attributes with
  | inl e => inl e
  | inr attributes =>
  match set_item "NSExtensionActivationSupportsURLWithMaxCount" (PInteger 1) attributes with
  | inl e => inl e
  | inr attributes =>
  match set_item "NSExtensionActivationSupportsText" (PBool true) attributes with
  | inl e => inl e
  | inr attributes =>
      set_item "NSExtensionActivationSupportsAttachmentWithMaxCount" (PInteger 1) attributes
  end end end.

(** The assignments to the [NSExtension] dictionary; [attributes] is the
    same object as [extension_config["NSExtensionAttributes"]], so what is
    assigned to it shows in [extension_config]. *)
Definition update_extension (extension_config : plist) : error + plist :=
  match set_item "NSExtensionPointIdentifier" (PString "com.apple.share-services")
          extension_config with
  | inl e => inl e
  | inr extension_config =>
  match set_item "NSExtensionPrincipalClass"
          (PString "$(PRODUCT_MODULE_NAME).ShareViewController") extension_config with
  | inl e => inl e
  | inr extension_config =>
  match extension_config with
  | PDict d =>
      match update_attributes (setdefault_dict "NSExtensionAttributes" d) with
      | inl e => inl e
      | inr attributes => inr (PDict (<["NSExtensionAttributes" := attributes]> d))
      end
  | _ => inl TypeError
  end end end.

(** What [update_info_plist] does to the loaded value [plist_data]. *)
Definition update_plist_data (plist_data : plist) : error + plist :=
  match set_item "CFBundleDisplayName" (PString "Hamrah Share") plist_data with
  | inl e => inl e
  | inr plist_data =>
  match set_item "CFBundleVersion" (PString "1") plist_data with
  | inl e => inl e
  | inr plist_data =>
  match set_item "CFBundleShortVersionString" (PString "1.0") plist_data with
  | inl e => inl e
  | inr plist_data =>
  match plist_data with
  | PDict d =>
      match update_extension (setdefault_dict "NSExtension" d) with
      | inl e => inl e
      | inr extension_config => inr (PDict (<["NSExtension" := extension_config]> d))
      end
  | _ => inl TypeError
  end end end end.

Definition required_files : list string :=
  [ "ShareExtension/Sources/ShareViewController.swift";
    "ShareExtension/Sources/Info.plist";
    "ShareExtension/Sources/ShareExtension.entitlements";
    "ShareExtension/Sources/Utilities/ShareExtensionDataStack.swift" ].

(** The first loop of [verify_share_extension_structure]. *)
Fixpoint collect_missing (project_dir : string) (files missing_files : list string)
    : C (list string) :=
  match files with
  | [] => creturn missing_files
  | file_path :: rest =>
      let full_path := os_path_join project_dir file_path in
      found <~ cexists full_path ;;
      collect_missing project_dir rest
        (if negb found then missing_files ++ [file_path] else missing_files)
  end.

Fixpoint print_missing (missing_files : list string) : C unit :=
  match missing_files with
  | [] => creturn tt
  | file_path :: rest => cprint (Missing_file file_path) ;;; print_missing rest
  end.

Definition verify_share_extension_structure (project_dir : string) : C bool :=
  missing_files <~ collect_missing project_dir required_files [] ;;
  match missing_files with
  | _ :: _ =>
      cprint Missing_required_files ;;;
      print_missing missing_files ;;;
      creturn false
  | [] =>
      cprint All_required_present ;;;
      creturn true
  end.

Definition update_info_plist (project_dir : string) : C bool :=
  let info_plist_path :=
    os_path_join (os_path_join (os_path_join project_dir "ShareExtension") "Sources")
      "Info.plist" in
  found <~ cexists info_plist_path ;;
  if negb found then
    cprint (Info_plist_not_found info_plist_path) ;;;
    creturn false
  else
    plist_data <~ load_plist info_plist_path ;;
    plist_data <~ of_sum (update_plist_data plist_data) ;;
    dump_plist info_plist_path plist_data ;;;
    cprint (Updated_info_plist info_plist_path) ;;;
    creturn true.

(** [entitlements.get(key, [])]. *)
Definition get_or_empty (key : string) (entitlements : plist) : error + plist :=
  match entitlements with
  | PDict d =>
      inr (match d !! key with Some value => value | None => PArray [] end)
  | _ => inl AttributeError
  end.

(** [item == s] for a string [s]. *)
Definition is_string (s : string) (item : plist) : bool :=
  match item with
  | PString s' => String.eqb s' s
  | _ => false
  end.

(** [s in value] for a string [s]. *)
Definition str_in (s : string) (value : plist) : error + bool :=
  match value with
  | PArray l => inr (existsb (is_string s) l)
  | PDict d => inr (match d !! s with Some _ => true | None => false end)
  | PString s' => inr (contains s s')
  | _ => inl TypeError
  end.

Definition check_main_app_configuration (project_dir : string) : C bool :=
  let main_entitlements :=
    os_path_join (os_path_join project_dir "hamrah-ios") "hamrah-ios.entitlements" in
  cprint Checking_main_app ;;;
  found <~ cexists main_entitlements ;;
  (if found then
     entitlements <~ load_plist main_entitlements ;;
     app_groups <~ of_sum (get_or_empty "com.apple.security.application-groups"
                             entitlements) ;;
     present <~ of_sum (str_in "group.app.hamrah.ios" app_groups) ;;
     if present then cprint App_group_present else cprint App_group_missing
   else cprint Entitlements_not_found) ;;;
  creturn true.

(** [main]; [project_dir] is the directory of the script, which
    [os.chdir] enters: every path of the script is absolute. *)
Definition main (project_dir : string) : C bool :=
  cprint Configuring ;;;
  verified <~ verify_share_extension_structure project_dir ;;
  if negb verified then
    cprint Ensure_files_in_place ;;;
    creturn false
  else
    updated <~ update_info_plist project_dir ;;
    if negb updated then
      cprint Failed_to_update_info_plist ;;;
      creturn false
    else
      check_main_app_configuration project_dir ;;;
      of_update (ConfigureShareExtension.update_project_configuration project_dir) ;;;
      cprint Configuration_completed ;;;
      creturn true.

End Plistlib.

End ConfigureScript.

(** ** validate_implementation.py *)

Module ValidateImplementation.
Import Os.

Inductive message : Type :=
| Heading (title : string)
| Present (file_path : string)
| Missing (file_path : string)
| File_not_found (file_path : string)
| Contains (file_path search_string : string)
| Missing_string (file_path search_string : string)
| Error_reading (file_path : string) (e : exn)
| All_checks_passed
| Validation_failed.

Definition check_file_exists (file_path : string) : M message bool :=
  found <- os_path_exists file_path ;;
  if found then print (Present file_path) ;; ret true
  else print (Missing file_path) ;; ret false.

(** The loop over [search_strings] of [check_file_contains]. *)
Fixpoint search_all (file_path content : string) (search_strings : list string)
    (all_found : bool) : M message bool :=
  match search_strings with
  | [] => ret all_found
  | search_string :: rest =>
      if contains search_string content then
        print (Contains file_path search_string) ;;
        search_all file_path content rest all_found
      else
        print (Missing_string file_path search_string) ;;
        search_all file_path content rest false
  end.

Definition check_file_contains (file_path : string) (search_strings : list string)
    : M message bool :=
  found <- os_path_exists file_path ;;
  if negb found then
    print (File_not_found file_path) ;;
    ret false
  else
    try_except
      (content <- read_text file_path ;;
       search_all file_path content search_strings true)
      (fun e => print (Error_reading file_path e) ;; ret false).

Definition base_dir : string := "/home/runner/work/hamrah-ios/hamrah-ios".

Definition core_files : list string :=
  [ "hamrah-ios/ProgressiveAuthView.swift";
    "hamrah-ios/BiometricLaunchView.swift";
    "hamrah-ios/BiometricAuthManager.swift";
    "hamrah-ios/NativeAuthManager.swift" ].

Definition test_files : list string :=
  [ "hamrah-ios-tests/hamrahIOSTests.swift";
    "hamrah-ios-tests/BiometricLaunchTests.swift" ].

Definition doc_files : list string := [ "FACE_ID_INTEGRATION.md" ].

Definition progressive_auth_content : list string :=
  [ "biometricAuthPending"; "checkBiometricAuthRequirement";
    "handleBiometricAuthOnLaunch"; "hasCheckedBiometric"; "BiometricLaunchView" ].

Definition biometric_launch_content : list string :=
  [ "BiometricLaunchView"; "biometricManager"; "biometricIconName"; "Unlock Hamrah" ].

Definition test_content : list string :=
  [ "BiometricLaunchScenarioTests"; "testUnauthenticatedUserShowsLogin";
    "testAuthenticatedUserWithFaceIDRequiresBiometric";
    "testSuccessfulFaceIDKeepsUserLoggedIn" ].

(** A loop [for file_path in files: if not check_file_exists(...)]. *)
Fixpoint check_files (files : list string) (all_checks_passed : bool) : M message bool :=
  match files with
  | [] => ret all_checks_passed
  | file_path :: rest =>
      let full_path := os_path_join base_dir file_path in
      ok <- check_file_exists full_path ;;
      check_files rest (if negb ok then false else all_checks_passed)
  end.

Definition main : M message N :=
  print (Heading "Validating Face ID Authentication on App Launch Implementation") ;;
  let all_checks_passed := true in
  print (Heading "Core Implementation Files:") ;;
  all_checks_passed <- check_files core_files all_checks_passed ;;
  print (Heading "Test Files:") ;;
  all_checks_passed <- check_files test_files all_checks_passed ;;
  print (Heading "Documentation:") ;;
  all_checks_passed <- check_files doc_files all_checks_passed ;;
  print (Heading "Content Validation:") ;;
  let progressive_auth_path := os_path_join base_dir "hamrah-ios/ProgressiveAuthView.swift" in
  ok <- check_file_contains progressive_auth_path progressive_auth_content ;;
  let all_checks_passed := if negb ok then false else all_checks_passed in
  let biometric_launch_path := os_path_join base_dir "hamrah-ios/BiometricLaunchView.swift" in
  ok <- check_file_contains biometric_launch_path biometric_launch_content ;;
  let all_checks_passed := if negb ok then false else all_checks_passed in
  let test_path := os_path_join base_dir "hamrah-ios-tests/BiometricLaunchTests.swift" in
  ok <- check_file_contains test_path test_content ;;
  let all_checks_passed := if negb ok then false else all_checks_passed in
  if all_checks_passed then
    print All_checks_passed ;;
    ret 0%N
  else
    print Validation_failed ;;
    ret 1%N.

(** [sys.exit(main())]: the exit status is the value of [main], or 1 when
    an exception is not caught. *)
Definition script (w : world message) : N * world message :=
  match main w with
  | (Ok code, w') => (code, w')
  | (Raise _, w') => (1%N, w')
  end.

End ValidateImplementation.

(** ** Predicates of the statements *)

(** Every character of [s] is in the class [cls]. *)
Fixpoint all_chars (cls : ascii -> bool) (s : string) : bool :=
  match s with
  | EmptyString => true
  | String c s' => cls c && all_chars cls s'
  end.

Definition is_lower_hex (c : ascii) : bool :=
  let n := nat_of_ascii c in
  (((48 <=? n) && (n <=? 57)) || ((97 <=? n) && (n <=? 102)))%nat.

(** The effect of the patch steps on a text, apart from what they print. *)
Fixpoint apply_steps (steps : list FixXcodeProject.step) (content : string)
    : Os.result string :=
  match steps with
  | [] => Os.Ok content
  | (_, rule) :: steps' =>
      match rule content with
      | Os.Ok content' => apply_steps steps' content'
      | Os.Raise e => Os.Raise e
      end
  end.

(** The titles of the steps that [run_steps] prints before one raises. *)
Fixpoint step_lines (steps : list FixXcodeProject.step) (content : string)
    : list FixXcodeProject.message :=
  match steps with
  | [] => []
  | (title, rule) :: steps' =>
      FixXcodeProject.Step title ::
      match rule content with
      | Os.Ok content' => step_lines steps' content'
      | Os.Raise _ => []
      end
  end.

Definition backup_path : string := "hamrah-ios.xcodeproj/project.pbxproj.backup".

(** A project directory that holds a descriptor with the bytes [content]. *)
Definition project_disk (content : string) : gmap string Os.entry :=
  <[ "hamrah-ios.xcodeproj" := Os.Dir ]>
    (<[ FixXcodeProject.project_path := Os.File content ]> empty).


(** The first step of the script followed by a step that raises. *)
Definition failing_steps : list FixXcodeProject.step :=
  [ ("Fixing ShareExtension target settings...",
     fun content => Os.Ok (FixXcodeProject.fix_shareextension_target_settings content));
    ("Injected failure",
     fun _ => Os.Raise (Os.PatchError "injected")) ].

(** A small project descriptor: the main app target with its build phases
    and an empty dependency list, and an empty PBXTargetDependency section. *)
Definition sample_project : string :=
  text [
    "/* Begin PBXNativeTarget section */";
    line 2 "3AC7BF752E4900DF00D7AA35 /* hamrah-ios */ = {";
    line 3 "isa = PBXNativeTarget;";
    line 3 "buildPhases = (";
    line 4 "3AC7BF722E4900DF00D7AA35 /* Sources */,";
    line 3 ");";
    line 3 "dependencies = (";
    line 3 ");";
    line 3 "name = hamrah-ios;";
    line 2 "};";
    line 0 "/* End PBXNativeTarget section */";
    line 0 "/* Begin PBXTargetDependency section */";
    line 0 "/* End PBXTargetDependency section */";
    nl ].

(** What [validate_implementation.main] checks, as a property of the disk:
    [path_exists] is [os.path.exists]; [file_contains_all] holds of a
    file whose bytes are UTF-8 and whose text contains every string. *)
Definition path_exists (d : gmap string Os.entry) (path : string) : bool :=
  match d !! path with Some _ => true | None => false end.

Definition file_contains_all (d : gmap string Os.entry) (path : string)
    (search_strings : list string) : bool :=
  match d !! path with
  | Some (Os.File bytes) =>
      utf8_valid bytes
      && forallb (fun s => contains s (Os.universal_newlines bytes)) search_strings
  | _ => false
  end.

Definition validation_ok (d : gmap string Os.entry) : bool :=
  let at_base := Os.os_path_join ValidateImplementation.base_dir in
  forallb (fun f => path_exists d (at_base f))
    (ValidateImplementation.core_files ++ ValidateImplementation.test_files
     ++ ValidateImplementation.doc_files)
  && file_contains_all d (at_base "hamrah-ios/ProgressiveAuthView.swift")
       ValidateImplementation.progressive_auth_content
  && file_contains_all d (at_base "hamrah-ios/BiometricLaunchView.swift")
       ValidateImplementation.biometric_launch_content
  && file_contains_all d (at_base "hamrah-ios-tests/BiometricLaunchTests.swift")
       ValidateImplementation.test_content.

(** A project directory whose descriptor is gone while a backup of an
    earlier run is left. *)
Definition stale_backup_disk (content : string) : gmap string Os.entry :=
  <[ "hamrah-ios.xcodeproj" := Os.Dir ]> (<[ backup_path := Os.File content ]> empty).

(** Two resources build phases: the one of the main app, which lists the
    Info.plist of the ShareExtension, and the one of another target, which
    lists that target's own Info.plist. *)
Definition sample_resources : string :=
  text [
    "/* Begin PBXResourcesBuildPhase section */";
    line 2 "3AC7BF742E4900DF00D7AA35 /* Resources */ = {";
    line 3 "isa = PBXResourcesBuildPhase;";
    line 3 "files = (";
    line 4 "5FE0000000000000000000A1 /* Info.plist in Resources */,";
    line 4 "3AC7BF802E4900DF00D7AA35 /* Assets.xcassets in Resources */,";
    line 3 ");";
    line 2 "};";
    line 2 "7B10000000000000000000F4 /* Resources */ = {";
    line 3 "isa = PBXResourcesBuildPhase;";
    line 3 "files = (";
    line 4 "7B10000000000000000000B2 /* Info.plist in Resources */,";
    line 4 "7B10000000000000000000B3 /* Widget.xcassets in Resources */,";
    line 3 ");";
    line 2 "};";
    line 0 "/* End PBXResourcesBuildPhase section */";
    nl ].

(** The entry of the other target in [sample_resources]. *)
Definition other_target_entry : string :=
  "7B10000000000000000000B2 /* Info.plist in Resources */,".

(** A descriptor with Windows line ends, in the project directory [/proj]. *)
Definition crlf_project : string :=
  text [ "// !$*UTF8*$!"; cr; nl; "{"; cr; nl; "}"; cr; nl ].

Definition crlf_disk : gmap string Os.entry :=
  <[ "/proj/hamrah-ios.xcodeproj/project.pbxproj" := Os.File crlf_project ]> empty.












(** The directory of the three old paths of [fix_file_references]. *)
Definition old_prefix : string := "hamrah-ios/ShareExtension/".

(** The settings-block pattern after its first repetition. *)
Definition settings_tail : Re.pattern :=
  (Re.lit "buildSettings"
   ++ Re.Space 0 :: Re.Lit "=" :: Re.Space 0 :: Re.Lit "{"
   :: Re.Close 1 :: Re.Open 2 :: Re.Rep (is_not "}") 1 :: Re.Close 2
   :: Re.Open 3 :: Re.Lit "}" :: Re.Lit ";" :: [Re.Close 3])%list.

(** A computation keeps the paths outside [P]: it writes at most to the
    paths in [P]. *)
Definition keeps {E A : Type} (P : string -> Prop) (c : Os.M E A) : Prop :=
  forall (w : Os.world E) (p : string),
    ~ P p -> Os.disk (snd (c w)) !! p = Os.disk w !! p.

(** The paths that a run of [fix_xcode_project.main] can write: the
    descriptor, the backup, and the copies that [shutil.copy2] puts inside
    either of them when it is a directory. *)
Definition main_writes (p : string) : Prop :=
  p = FixXcodeProject.project_path
  \/ p = backup_path
  \/ p = Os.os_path_join backup_path "project.pbxproj"
  \/ p = Os.os_path_join FixXcodeProject.project_path "project.pbxproj.backup".

(** A pattern needs the literal [a] when each of its matches reads [a]. *)
Definition needs_literal (a : string) (p : Re.pattern) : Prop :=
  forall (s : string) (i : nat) (m : Re.marks) (r : nat * Re.marks),
    Re.run p s i m = Some r -> contains a s = true.

(** The anchors of the patch rules: a descriptor that holds none of them has
    nothing for a rule to match. *)
Definition no_anchor (s : string) : bool :=
  negb (contains "5FEXTDBG0001" s) && negb (contains "5FEXTREL0001" s)
  && negb (contains "hamrah-ios/ShareExtension/" s)
  && negb (contains "3AC7BF752E4900DF00D7AA35" s)
  && negb (contains "/* End " s)
  && negb (contains "Resources" s)
  && negb (contains "5FMAINGRP0001" s).








(** [deletion a s]: the text [a] is [s] with some characters left out. *)
Inductive deletion : string -> string -> Prop :=
| deletion_end : deletion EmptyString EmptyString
| deletion_keep (c : ascii) (a s : string) :
    deletion a s -> deletion (String c a) (String c s)
| deletion_drop (c : ascii) (a s : string) :
    deletion a s -> deletion a (String c s).

(** The dictionary of a property-list value, empty for another value. *)
Definition dict_of (value : ConfigureScript.plist) : gmap string ConfigureScript.plist :=
  match value with
  | ConfigureScript.PDict d => d
  | _ => empty
  end.

(** A value is absent or a dictionary. *)
Definition dict_or_absent (value : option ConfigureScript.plist) : bool :=
  match value with
  | None => true
  | Some (ConfigureScript.PDict _) => true
  | Some _ => false
  end.

(** The shape [update_info_plist] can work on: a dictionary whose
    [NSExtension], when present, is a dictionary whose
    [NSExtensionAttributes], when present, is a dictionary. *)
Definition well_shaped (plist_data : ConfigureScript.plist) : bool :=
  match plist_data with
  | ConfigureScript.PDict d =>
      match d !! "NSExtension" with
      | None => true
      | Some (ConfigureScript.PDict e) => dict_or_absent (e !! "NSExtensionAttributes")
      | Some _ => false
      end
  | _ => false
  end.

(** The keys that [update_info_plist] assigns at the top level, in
    [NSExtension] and in [NSExtensionAttributes]. *)
Definition top_keys : list string :=
  [ "CFBundleDisplayName"; "CFBundleVersion"; "CFBundleShortVersionString"; "NSExtension" ].

Definition extension_keys : list string :=
  [ "NSExtensionPointIdentifier"; "NSExtensionPrincipalClass"; "NSExtensionAttributes" ].

Definition attribute_keys : list string :=
  [ "NSExtensionActivationSupportsWebURLWithMaxCount";
    "NSExtensionActivationSupportsURLWithMaxCount";
    "NSExtensionActivationSupportsText";
    "NSExtensionActivationSupportsAttachmentWithMaxCount" ].

(** [one_of keys k]: the key [k] is one of [keys]. *)
Definition one_of (keys : list string) (k : string) : bool :=
  existsb (String.eqb k) keys.

(** The [NSExtension] dictionary of the top-level dictionary [d] and its
    [NSExtensionAttributes] dictionary, each empty when there is none. *)
Definition old_extension (d : gmap string ConfigureScript.plist)
    : gmap string ConfigureScript.plist :=
  match d !! "NSExtension" with Some value => dict_of value | None => empty end.

Definition old_attributes (d : gmap string ConfigureScript.plist)
    : gmap string ConfigureScript.plist :=
  match old_extension d !! "NSExtensionAttributes" with
  | Some value => dict_of value
  | None => empty
  end.

(** The three dictionaries after the assignments of [update_info_plist]. *)
Definition new_attributes (d : gmap string ConfigureScript.plist)
    : gmap string ConfigureScript.plist :=
  <["NSExtensionActivationSupportsAttachmentWithMaxCount" := ConfigureScript.PInteger 1]>
  (<["NSExtensionActivationSupportsText" := ConfigureScript.PBool true]>
  (<["NSExtensionActivationSupportsURLWithMaxCount" := ConfigureScript.PInteger 1]>
  (<["NSExtensionActivationSupportsWebURLWithMaxCount" := ConfigureScript.PInteger 1]>
     (old_attributes d)))).

Definition new_extension (d : gmap string ConfigureScript.plist)
    : gmap string ConfigureScript.plist :=
  <["NSExtensionAttributes" := ConfigureScript.PDict (new_attributes d)]>
  (<["NSExtensionPrincipalClass" :=
       ConfigureScript.PString "$(PRODUCT_MODULE_NAME).ShareViewController"]>
  (<["NSExtensionPointIdentifier" := ConfigureScript.PString "com.apple.share-services"]>
     (old_extension d))).

Definition new_plist_data (d : gmap string ConfigureScript.plist)
    : gmap string ConfigureScript.plist :=
  <["NSExtension" := ConfigureScript.PDict (new_extension d)]>
  (<["CFBundleShortVersionString" := ConfigureScript.PString "1.0"]>
  (<["CFBundleVersion" := ConfigureScript.PString "1"]>
  (<["CFBundleDisplayName" := ConfigureScript.PString "Hamrah Share"]> d))).

(** The separator that [os.path.join] puts after the directory [a]. *)
Definition separator (a : string) : string :=
  if negb (nonempty a) || Os.ends_with_slash a then "" else "/".

(** The paths of [configure_share_extension.py] under the directory of the
    script. *)
Definition info_plist_path (project_dir : string) : string :=
  project_dir +:+ separator project_dir +:+ "ShareExtension/Sources/Info.plist".

Definition entitlements_path (project_dir : string) : string :=
  project_dir +:+ separator project_dir +:+ "hamrah-ios/hamrah-ios.entitlements".

Definition pbxproj_path (project_dir : string) : string :=
  project_dir +:+ separator project_dir +:+ "hamrah-ios.xcodeproj/project.pbxproj".

(** The required files that are missing on a disk, in the order of the
    list of the script. *)
Definition missing_files (files : gmap string Os.entry) (project_dir : string)
    : list string :=
  List.filter
    (fun file_path =>
       match files !! Os.os_path_join project_dir file_path with
       | Some _ => false
       | None => true
       end)
    ConfigureScript.required_files.

(** The entitlements of the main app are such that
    [check_main_app_configuration] can read the application groups: the file
    is absent, or it holds a dictionary in which the groups are absent or
    an array, a dictionary or a string. *)
Definition entitlements_ok (loads : string -> option ConfigureScript.plist)
    (files : gmap string Os.entry) (project_dir : string) : bool :=
  match files !! entitlements_path project_dir with
  | None => true
  | Some Os.Dir => false
  | Some (Os.File bytes) =>
      match loads bytes with
      | Some (ConfigureScript.PDict d) =>
          match d !! "com.apple.security.application-groups" with
          | None => true
          | Some (ConfigureScript.PArray _) => true
          | Some (ConfigureScript.PDict _) => true
          | Some (ConfigureScript.PString _) => true
          | Some _ => false
          end
      | _ => false
      end
  end.

(** A computation of [configure_share_extension.py] keeps the paths outside
    [P]. *)
Definition ckeeps {A : Type} (P : string -> Prop) (c : ConfigureScript.C A) : Prop :=
  forall (w : Os.world ConfigureScript.message) (p : string),
    ~ P p -> Os.disk (snd (c w)) !! p = Os.disk w !! p.

(** A project directory with the four files of the share extension, and a
    stand-in for [plistlib]: every file loads as the empty dictionary, every
    value is written as the same bytes. *)
Definition sample_extension_disk : gmap string Os.entry :=
  <["/proj/ShareExtension/Sources/ShareViewController.swift" := Os.File "import UIKit"]>
  (<["/proj/ShareExtension/Sources/Info.plist" := Os.File "<plist/>"]>
  (<["/proj/ShareExtension/Sources/ShareExtension.entitlements" := Os.File "<plist/>"]>
  (<["/proj/ShareExtension/Sources/Utilities/ShareExtensionDataStack.swift"
       := Os.File "import CoreData"]> empty))).

Definition sample_loads (bytes : string) : option ConfigureScript.plist :=
  Some (ConfigureScript.PDict empty).

Definition sample_dumps (value : ConfigureScript.plist) : ConfigureScript.dumped :=
  ConfigureScript.Dumped "<plist>...</plist>".

(** The same directory with a project descriptor. *)
Definition sample_configured_disk : gmap string Os.entry :=
  <["/proj/hamrah-ios.xcodeproj/project.pbxproj" := Os.File crlf_project]>
    sample_extension_disk.

(** The same directory with a directory in the place of the entitlements
    of the main app. *)
Definition sample_unreadable_disk : gmap string Os.entry :=
  <["/proj/hamrah-ios/hamrah-ios.entitlements" := Os.Dir]> sample_extension_disk.

(** The line that [check_file_contains] prints for one search string. *)
Definition search_report (file_path content search_string : string)
    : ValidateImplementation.message :=
  if contains search_string content
  then ValidateImplementation.Contains file_path search_string
  else ValidateImplementation.Missing_string file_path search_string.

(** ** Strings *)

Lemma append_cons (x : ascii) (a b : string) :
  String x a +:+ b = String x (a +:+ b).
Proof. reflexivity. Qed.

Lemma append_nil_l (b : string) : EmptyString +:+ b = b.
Proof. reflexivity. Qed.

Lemma append_assoc (a b c : string) : (a +:+ b) +:+ c = a +:+ (b +:+ c).
Proof.
  induction a as [|x a IH]; [reflexivity|].
  rewrite !append_cons. now rewrite IH.
Qed.


Lemma length_append (a b : string) :
  String.length (a +:+ b) = String.length a + String.length b.
Proof.
  induction a as [|x a IH]; [reflexivity|].
  rewrite append_cons. simpl. now rewrite IH.
Qed.

Lemma all_chars_append (cls : ascii -> bool) (a b : string) :
  all_chars cls (a +:+ b) = all_chars cls a && all_chars cls b.
Proof.
  induction a as [|x a IH]; [reflexivity|].
  rewrite append_cons. simpl. rewrite IH. apply andb_assoc.
Qed.

(** [s[:n]] keeps [n] characters of a text that has as many. *)
Lemma length_take (n : nat) (s : string) :
  n <= String.length s -> String.length (substring 0 n s) = n.
Proof.
  revert s. induction n as [|n IH]; intros [|c s] H; simpl in *; try lia.
  rewrite IH; [reflexivity | lia].
Qed.

Lemma all_chars_take (cls : ascii -> bool) (n : nat) (s : string) :
  all_chars cls s = true -> all_chars cls (substring 0 n s) = true.
Proof.
  revert s. induction n as [|n IH]; intros [|c s] H; simpl in *; try reflexivity.
  apply andb_true_iff in H as [Hc Hs]. rewrite Hc. simpl. now apply IH.
Qed.

(** ** generate_uuid *)

Section Uuid.
Import FixXcodeProject.

Lemma hex_digit_lower (d : N) : is_lower_hex (hex_digit d) = true.
Proof.
  unfold hex_digit. generalize (N.to_nat d). intros k.
  do 16 (destruct k as [|k]; [reflexivity|]). reflexivity.
Qed.

Lemma hex_digits_lower (fuel : nat) :
  forall (n : N) (acc : string),
    all_chars is_lower_hex acc = true ->
    all_chars is_lower_hex (hex_digits fuel n acc) = true.
Proof.
  induction fuel as [|fuel IH]; intros n acc Hacc; simpl; [exact Hacc|].
  assert (Hstep : all_chars is_lower_hex (String (hex_digit (n mod 16)) acc) = true).
  { simpl. now rewrite hex_digit_lower, Hacc. }
  destruct (n / 16 =? 0)%N; [exact Hstep | now apply IH].
Qed.

Lemma zeros_lower (n : nat) : all_chars is_lower_hex (zeros n) = true.
Proof. induction n as [|n IH]; simpl; [reflexivity | exact IH]. Qed.

Lemma length_zeros (n : nat) : String.length (zeros n) = n.
Proof. induction n as [|n IH]; simpl; [reflexivity | now rewrite IH]. Qed.

Lemma format_032x_lower (n : N) : all_chars is_lower_hex (format_032x n) = true.
Proof.
  unfold format_032x. rewrite all_chars_append, zeros_lower, andb_true_l.
  now apply hex_digits_lower.
Qed.

Lemma format_032x_length (n : N) : 32 <= String.length (format_032x n).
Proof.
  unfold format_032x. rewrite length_append, length_zeros. lia.
Qed.

Lemma upper_char_hex (c : ascii) :
  is_lower_hex c = true -> is_upper_hex (upper_char c) = true.
Proof.
  destruct c as [[] [] [] [] [] [] [] []]; vm_compute; intros H;
    first [reflexivity | discriminate H].
Qed.

Lemma upper_hex (s : string) :
  all_chars is_lower_hex s = true -> all_chars is_upper_hex (upper s) = true.
Proof.
  induction s as [|c s IH]; simpl; [reflexivity|].
  intros H. apply andb_true_iff in H as [Hc Hs].
  now rewrite (upper_char_hex c Hc), IH.
Qed.

Lemma length_upper (s : string) : String.length (upper s) = String.length s.
Proof. induction s as [|c s IH]; simpl; [reflexivity | now rewrite IH]. Qed.

(** C9: every call of [generate_uuid], whatever bytes the random source
    gives, returns exactly 24 characters, each one of [0-9A-F]. *)
Theorem generate_uuid_format (urandom : list Byte.byte) :
  String.length (generate_uuid urandom) = 24
  /\ all_chars is_upper_hex (generate_uuid urandom) = true.
Proof.
  unfold generate_uuid. split.
  - rewrite length_upper. apply length_take.
    pose proof (format_032x_length (uuid4_int urandom)). lia.
  - apply upper_hex, all_chars_take, format_032x_lower.
Qed.

End Uuid.

(** ** The orchestrator: backup, patch in memory, write or restore *)

Section Orchestrator.
Import Os FixXcodeProject.

Lemma backup_path_eq : project_path +:+ ".backup" = backup_path.
Proof. reflexivity. Qed.

Lemma project_ne_backup : project_path <> backup_path.
Proof. intros H. apply String.eqb_eq in H. vm_compute in H. discriminate H. Qed.

Lemma backup_target_ne_project :
  os_path_join backup_path (basename project_path) <> project_path.
Proof. intros H. apply String.eqb_eq in H. vm_compute in H. discriminate H. Qed.

(** The steps only print: their result is [apply_steps], the disk is kept. *)
Lemma run_steps_spec (steps : list step) :
  forall (content : string) (w : world message),
    run_steps steps content w =
    (apply_steps steps content,
     World (disk w) (printed w ++ step_lines steps content)).
Proof.
  induction steps as [|[title rule] steps IH]; intros content w.
  - simpl. unfold ret. rewrite app_nil_r. now destruct w.
  - simpl. unfold bind, print, lift. simpl.
    destruct (rule content) as [content'|e].
    + rewrite IH. simpl. now rewrite <- app_assoc.
    + reflexivity.
Qed.

Lemma except_block_keeps (e : exn) (w : world message) (bytes : string) :
  disk w !! project_path = Some (File bytes) ->
  disk w !! backup_path = Some (File bytes) \/ disk w !! backup_path = Some Dir ->
  disk (snd (except_block e w)) !! project_path = Some (File bytes)
  /\ fst (except_block e w) <> Ok true.
Proof.
  intros Hfile Hbackup.
  unfold except_block, bind, print, os_path_exists, copy2, ret. simpl.
  fold backup_path. fold project_path.
  destruct Hbackup as [Hb|Hb]; repeat (rewrite ?Hb, ?Hfile; simpl).
  - split; [apply lookup_insert_eq | discriminate].
  - split; [reflexivity | discriminate].
Qed.

Lemma backup_project_cases (w : world message) (bytes : string) :
  disk w !! project_path = Some (File bytes) ->
  (exists target,
      target <> project_path
      /\ backup_project w =
         (Ok backup_path,
          World (<[target := File bytes]> (disk w))
                (printed w ++ [Backed_up backup_path]))
      /\ (target = backup_path \/ disk w !! backup_path = Some Dir))
  \/ (exists e', backup_project w = (Raise e', w)
                 /\ disk w !! backup_path = Some Dir).
Proof.
  intros Hfile.
  unfold backup_project, bind, print, copy2, ret. simpl.
  rewrite backup_path_eq. rewrite Hfile.
  destruct (disk w !! backup_path) as [[c|]|] eqn:Hb.
  - rewrite Hb. left. exists backup_path.
    split; [apply not_eq_sym, project_ne_backup|]. split; [reflexivity | now left].
  - change (basename project_path) with "project.pbxproj".
    destruct (disk w !! os_path_join backup_path "project.pbxproj") as [[c|]|] eqn:Ht.
    + left. eexists. split; [apply backup_target_ne_project|].
      split; [reflexivity | now right].
    + right. eexists. split; [reflexivity | reflexivity].
    + left. eexists. split; [apply backup_target_ne_project|].
      split; [reflexivity | now right].
  - rewrite Hb. left. exists backup_path.
    split; [apply not_eq_sym, project_ne_backup|]. split; [reflexivity | now left].
Qed.

Lemma try_block_fails (steps : list step) (w : world message) (bytes : string) (e : exn) :
  disk w !! project_path = Some (File bytes) ->
  apply_steps steps (universal_newlines bytes) = Raise e ->
  exists e' w',
    try_block steps w = (Raise e', w')
    /\ disk w' !! project_path = Some (File bytes)
    /\ (disk w' !! backup_path = Some (File bytes)
        \/ disk w' !! backup_path = Some Dir).
Proof.
  intros Hfile Hraise. unfold try_block, bind at 1.
  destruct (backup_project_cases w bytes Hfile)
    as [(target & Hne & Hrun & Htarget) | (e' & Hrun & Hdir)]; rewrite Hrun.
  - assert (Hkept : <[target := File bytes]> (disk w) !! project_path = Some (File bytes)
                    /\ (<[target := File bytes]> (disk w) !! backup_path
                          = Some (File bytes)
                        \/ <[target := File bytes]> (disk w) !! backup_path = Some Dir)).
    { split.
      - rewrite lookup_insert_ne by exact Hne. exact Hfile.
      - destruct Htarget as [-> | Hdir].
        + left. apply lookup_insert_eq.
        + destruct (decide (target = backup_path)) as [-> | Hnb].
          * left. apply lookup_insert_eq.
          * right. rewrite lookup_insert_ne by exact Hnb. exact Hdir. }
    unfold bind, print, read_project_file, read_text. simpl.
    rewrite lookup_insert_ne by exact Hne. rewrite Hfile.
    destruct (utf8_valid bytes).
    + rewrite run_steps_spec, Hraise. simpl.
      eexists _, _. split; [reflexivity | exact Hkept].
    + eexists _, _. split; [reflexivity | exact Hkept].
  - eexists _, _. split; [reflexivity|]. split; [exact Hfile | now right].
Qed.

(** C3: if a patch step raises during a run of [main], whatever the steps
    are, the descriptor on disk holds after the run the bytes it held before,
    and [main] does not report success. *)
Theorem main_atomic (steps : list step) (w : world message) (bytes : string) (e : exn) :
  disk w !! project_path = Some (File bytes) ->
  apply_steps steps (universal_newlines bytes) = Raise e ->
  disk (snd (main_with steps w)) !! project_path = Some (File bytes)
  /\ fst (main_with steps w) <> Ok true.
Proof.
  intros Hfile Hraise.
  unfold main_with, bind, print, os_path_exists, ret. simpl.
  destruct (disk w !! "hamrah-ios.xcodeproj") as [d|]; simpl.
  2:{ split; [exact Hfile | discriminate]. }
  set (w1 := World (disk w) (printed w ++ [Fixing_configuration])).
  destruct (try_block_fails steps w1 bytes e Hfile Hraise)
    as (e' & w' & Hrun & Hfile' & Hbackup).
  unfold try_except. rewrite Hrun.
  now apply except_block_keeps.
Qed.

Lemma main_atomic_witness :
  disk (snd (main_with failing_steps (World (project_disk sample_project) [])))
    !! project_path = Some (File sample_project)
  /\ fst (main_with failing_steps (World (project_disk sample_project) []))
     <> Ok true.
Proof.
  apply (main_atomic failing_steps (World (project_disk sample_project) [])
           sample_project (PatchError "injected")).
  - vm_compute. reflexivity.
  - vm_compute. reflexivity.
Defined.

Lemma backup_project_ok (w : world message) (bytes : string) :
  disk w !! project_path = Some (File bytes) ->
  disk w !! backup_path <> Some Dir ->
  backup_project w =
  (Ok backup_path,
   World (<[backup_path := File bytes]> (disk w))
         (printed w ++ [Backed_up backup_path])).
Proof.
  intros Hfile Hnodir.
  destruct (backup_project_cases w bytes Hfile)
    as [(target & Hne & Hrun & [-> | Hdir]) | (e' & Hrun & Hdir)];
    [exact Hrun | now destruct Hnodir | now destruct Hnodir].
Qed.

Lemma except_block_restores (e : exn) (w : world message) (bytes old : string) :
  disk w !! backup_path = Some (File bytes) ->
  disk w !! project_path = Some (File old) ->
  except_block e w =
  (Ok false,
   World (<[project_path := File bytes]> (disk w))
         (printed w ++ [Error_fixing e; Restoring_backup; Backup_restored])).
Proof.
  intros Hb Hfile.
  unfold except_block, bind, print, os_path_exists, copy2, ret. simpl.
  fold backup_path. fold project_path.
  repeat (rewrite ?Hb, ?Hfile; simpl).
  now rewrite <- !app_assoc.
Qed.

Lemma fix_exit_status (steps : list step) (w : world message) (bytes : string) :
  disk w !! project_path = Some (File bytes) ->
  disk w !! backup_path <> Some Dir ->
  fst (script_with steps w) = 0%N.
Proof.
  intros Hfile Hnodir.
  unfold script_with.
  destruct (main_with steps w) as [r w'] eqn:Hmain. simpl.
  revert Hmain.
  unfold main_with, bind at 1 2, print at 1, os_path_exists. simpl.
  destruct (disk w !! "hamrah-ios.xcodeproj") as [d|]; simpl.
  2:{ unfold bind, print, ret. simpl. intros [= <- ?]. reflexivity. }
  set (w1 := World (disk w) (printed w ++ [Fixing_configuration])).
  unfold try_except, try_block, bind at 1.
  rewrite (backup_project_ok w1 bytes Hfile Hnodir).
  unfold bind at 1 2, print at 1, read_project_file, read_text. simpl.
  rewrite lookup_insert_ne by (apply not_eq_sym, project_ne_backup).
  rewrite Hfile.
  assert (Hrestore : forall e lines,
             fst (except_block e (World (<[backup_path := File bytes]> (disk w)) lines))
             = Ok false).
  { intros e lines. erewrite except_block_restores; [reflexivity | |].
    - simpl. apply lookup_insert_eq.
    - simpl. rewrite lookup_insert_ne by (apply not_eq_sym, project_ne_backup).
      exact Hfile. }
  destruct (utf8_valid bytes).
  2:{ intros Hmain. apply (f_equal fst) in Hmain. cbn [fst] in Hmain.
      rewrite Hrestore in Hmain. now subst r. }
  unfold bind at 1. rewrite run_steps_spec. simpl.
  destruct (apply_steps steps (universal_newlines bytes)) as [content|e].
  - unfold bind, write_project_file, write_text, bind, print, ret. simpl.
    rewrite lookup_insert_ne by (apply not_eq_sym, project_ne_backup).
    rewrite Hfile. simpl. intros [= <- ?]. reflexivity.
  - intros Hmain. apply (f_equal fst) in Hmain. cbn [fst] in Hmain.
    rewrite Hrestore in Hmain. now subst r.
Qed.




End Orchestrator.

(** ** Exit statuses *)

Section Validate.
Import Os ValidateImplementation.

Lemma check_file_exists_spec (w : world message) (path : string) :
  exists lines,
    check_file_exists path w =
    (Ok (path_exists (disk w) path), World (disk w) (printed w ++ lines)).
Proof.
  unfold check_file_exists, bind, os_path_exists, print, ret, path_exists. simpl.
  destruct (disk w !! path); simpl; eexists; reflexivity.
Qed.

Lemma check_files_spec (files : list string) :
  forall (acc : bool) (w : world message),
  exists lines,
    check_files files acc w =
    (Ok (acc && forallb (fun f => path_exists (disk w) (os_path_join base_dir f)) files),
     World (disk w) (printed w ++ lines)).
Proof.
  induction files as [|f files IH]; intros acc w.
  - exists []. simpl. unfold ret. rewrite app_nil_r, andb_true_r. now destruct w.
  - simpl. unfold bind at 1.
    destruct (check_file_exists_spec w (os_path_join base_dir f)) as [l1 ->].
    destruct (IH (if negb (path_exists (disk w) (os_path_join base_dir f))
                  then false else acc)
                 (World (disk w) (printed w ++ l1))) as [l2 ->].
    exists (l1 ++ l2)%list. simpl. rewrite app_assoc. f_equal. f_equal.
    destruct (path_exists (disk w) (os_path_join base_dir f)), acc; reflexivity.
Qed.

Lemma search_all_spec (path content : string) (strs : list string) :
  forall (acc : bool) (w : world message),
  exists lines,
    search_all path content strs acc w =
    (Ok (acc && forallb (fun s => contains s content) strs),
     World (disk w) (printed w ++ lines)).
Proof.
  induction strs as [|s strs IH]; intros acc w.
  - exists []. simpl. unfold ret. rewrite app_nil_r, andb_true_r. now destruct w.
  - simpl. destruct (contains s content); unfold bind, print; simpl.
    + destruct (IH acc (World (disk w) (printed w ++ [Contains path s]))) as [l ->].
      exists (Contains path s :: l). simpl. now rewrite <- app_assoc.
    + destruct (IH false (World (disk w) (printed w ++ [Missing_string path s]))) as [l ->].
      exists (Missing_string path s :: l). simpl. rewrite <- app_assoc.
      now rewrite andb_false_r.
Qed.

Lemma check_file_contains_spec (path : string) (strs : list string) (w : world message) :
  exists lines,
    check_file_contains path strs w =
    (Ok (file_contains_all (disk w) path strs), World (disk w) (printed w ++ lines)).
Proof.
  unfold check_file_contains, file_contains_all, bind at 1, os_path_exists.
  destruct (disk w !! path) as [[c|]|] eqn:Hp; simpl.
  - unfold try_except, bind, read_text. simpl. rewrite Hp.
    destruct (utf8_valid c); [|unfold print, ret; simpl; eexists; reflexivity].
    destruct (search_all_spec path (universal_newlines c) strs true w) as [l ->].
    exists l. reflexivity.
  - unfold try_except, bind, read_text, print, ret. simpl. rewrite Hp.
    eexists. reflexivity.
  - unfold bind, print, ret. simpl. eexists. reflexivity.
Qed.

Lemma bind_print {A : Type} (x : message) (k : unit -> M message A) (w : world message) :
  bind (print x) k w = k tt (World (disk w) (printed w ++ [x])).
Proof. reflexivity. Qed.

Lemma bind_steady {A B : Type} (c : M message A) (k : A -> M message B)
    (w : world message) (a : A) (lines : list message) :
  c w = (Ok a, World (disk w) (printed w ++ lines)) ->
  bind c k w = k a (World (disk w) (printed w ++ lines)).
Proof. intros H. unfold bind. now rewrite H. Qed.

Ltac files_step :=
  match goal with
  | |- context [bind (check_files ?fs ?acc) ?k ?w0] =>
      let l := fresh "l" in
      let H := fresh "H" in
      destruct (check_files_spec fs acc w0) as [l H];
      rewrite (bind_steady (check_files fs acc) k w0 _ l H); clear H;
      cbv beta; cbn [disk printed]
  end.

Ltac contains_step :=
  match goal with
  | |- context [bind (check_file_contains ?p ?strs) ?k ?w0] =>
      let l := fresh "l" in
      let H := fresh "H" in
      destruct (check_file_contains_spec p strs w0) as [l H];
      rewrite (bind_steady (check_file_contains p strs) k w0 _ l H); clear H;
      cbv beta; cbn [disk printed]
  end.

Lemma validate_main_spec (w : world message) :
  exists lines,
    main w = (Ok (if validation_ok (disk w) then 0%N else 1%N),
              World (disk w) (printed w ++ lines)).
Proof.
  unfold main. cbv zeta.
  rewrite !bind_print. simpl disk. simpl printed.
  files_step. rewrite bind_print. simpl disk. simpl printed.
  files_step. rewrite bind_print. simpl disk. simpl printed.
  files_step. rewrite bind_print. simpl disk. simpl printed.
  contains_step. contains_step. contains_step.
  cbn [disk printed]. unfold validation_ok. cbv zeta. rewrite !forallb_app.
  generalize (forallb (fun f => path_exists (disk w) (os_path_join base_dir f)) core_files).
  generalize (forallb (fun f => path_exists (disk w) (os_path_join base_dir f)) test_files).
  generalize (forallb (fun f => path_exists (disk w) (os_path_join base_dir f)) doc_files).
  generalize (file_contains_all (disk w)
                (os_path_join base_dir "hamrah-ios/ProgressiveAuthView.swift")
                progressive_auth_content).
  generalize (file_contains_all (disk w)
                (os_path_join base_dir "hamrah-ios/BiometricLaunchView.swift")
                biometric_launch_content).
  generalize (file_contains_all (disk w)
                (os_path_join base_dir "hamrah-ios-tests/BiometricLaunchTests.swift")
                test_content).
  intros [] [] [] [] [] []; unfold bind, print, ret; simpl;
    rewrite <- !app_assoc; eexists; reflexivity.
Qed.

Lemma validate_exit_status (w : world message) :
  fst (script w) = if validation_ok (disk w) then 0%N else 1%N.
Proof.
  unfold script. destruct (validate_main_spec w) as [lines ->]. reflexivity.
Qed.

End Validate.

Section ExitStatus.
Import Os.

(** C4, as the code has it: [validate_implementation.py] exits with 0 when
    every check passes and with 1 otherwise; [fix_xcode_project.py] drops the
    value of [main] and exits with 0 whether the patch steps succeed or
    raise (no exit status 2). *)
Theorem exit_statuses (wv : world ValidateImplementation.message)
    (steps : list FixXcodeProject.step) (w : world FixXcodeProject.message)
    (bytes : string) :
  disk w !! FixXcodeProject.project_path = Some (File bytes) ->
  disk w !! backup_path <> Some Dir ->
  fst (ValidateImplementation.script wv) =
    (if validation_ok (disk wv) then 0%N else 1%N)
  /\ fst (FixXcodeProject.script_with steps w) = 0%N.
Proof.
  intros Hfile Hnodir. split.
  - apply validate_exit_status.
  - now apply fix_exit_status with (bytes := bytes).
Qed.

Lemma exit_statuses_witness :
  fst (ValidateImplementation.script (World empty [])) =
    (if validation_ok (disk (World empty ([] : list ValidateImplementation.message)))
     then 0%N else 1%N)
  /\ fst (FixXcodeProject.script_with failing_steps
            (World (project_disk sample_project) [])) = 0%N.
Proof.
  apply (exit_statuses (World empty []) failing_steps
           (World (project_disk sample_project) []) sample_project).
  - vm_compute. reflexivity.
  - vm_compute. discriminate.
Defined.

(** C4 as stated fails: a run in which a patch step raises and the backup is
    restored exits with 0, not 2; so does a run of the script as it is whose
    backup step fails and whose restore succeeds. *)
Lemma patch_failure_exits_zero :
  (apply_steps failing_steps (universal_newlines sample_project)
     = Raise (PatchError "injected")
   /\ last (printed (snd (FixXcodeProject.script_with failing_steps
                            (World (project_disk sample_project) []))))
      = Some FixXcodeProject.Backup_restored
   /\ fst (FixXcodeProject.script_with failing_steps
             (World (project_disk sample_project) [])) <> 2%N)
  /\ (last (printed (snd (FixXcodeProject.script
                            (World (stale_backup_disk sample_project) []))))
      = Some FixXcodeProject.Backup_restored
      /\ fst (FixXcodeProject.script
                (World (stale_backup_disk sample_project) [])) <> 2%N).
Proof. vm_compute. repeat split; discriminate. Qed.

End ExitStatus.

(** ** Runs of the patch rules on sample descriptors *)

Section Runs.
Import Os FixXcodeProject.

(** C1 fails on the code: on [sample_project] a run of [main] succeeds and
    writes [apply_fixes sample_project]; a second application appends the
    dependency entry once more, so the text changes again. *)
Theorem apply_fixes_not_idempotent :
  fst (main (World (project_disk sample_project) [])) = Ok true
  /\ disk (snd (main (World (project_disk sample_project) []))) !! project_path
     = Some (File (apply_fixes sample_project))
  /\ count "5FEXTDEP0001 /* PBXTargetDependency */," (apply_fixes sample_project) = 1
  /\ count "5FEXTDEP0001 /* PBXTargetDependency */,"
       (apply_fixes (apply_fixes sample_project)) = 2
  /\ apply_fixes (apply_fixes sample_project) <> apply_fixes sample_project.
Proof.
  split; [vm_compute; reflexivity|].
  split; [vm_compute; reflexivity|].
  split; [vm_compute; reflexivity|].
  split; [vm_compute; reflexivity|].
  intros H. apply (f_equal (count "5FEXTDEP0001 /* PBXTargetDependency */,")) in H.
  vm_compute in H. discriminate H.
Qed.

(** C2 fails on the code: after two runs of [add_embedded_extension] on
    [sample_project] the dependency list of the main app target holds the
    dependency ID twice, and no PBXTargetDependency object was defined,
    although the section that would receive it is there. *)
Theorem add_embedded_extension_twice :
  count "/* End PBXTargetDependency section */" sample_project = 1
  /\ count "5FEXTDEP0001" (add_embedded_extension sample_project) = 1
  /\ count "5FEXTDEP0001"
       (add_embedded_extension (add_embedded_extension sample_project)) = 2
  /\ count "isa = PBXTargetDependency;"
       (add_embedded_extension (add_embedded_extension sample_project)) = 0.
Proof. vm_compute. repeat split; reflexivity. Qed.

(** C8 fails on the code: the Info.plist entry of another target's resources
    phase is removed together with the one in the main app. *)
Theorem other_target_resource_removed :
  contains other_target_entry sample_resources = true
  /\ contains other_target_entry
       (remove_shareextension_from_main_app_resources sample_resources) = false
  /\ count "Info.plist in Resources"
       (remove_shareextension_from_main_app_resources sample_resources) = 0.
Proof. vm_compute. repeat split; reflexivity. Qed.

End Runs.

(** ** configure_share_extension.py: the backup *)

Section Configure.
Import Os ConfigureShareExtension.

(** What [update_project_configuration] does when the descriptor is a file
    of UTF-8 bytes and the backup path is not a directory: it returns True,
    the backup holds the text read from the descriptor, every other path is
    as before. *)
Lemma update_project_configuration_frame (project_dir content : string)
    (w : world message) :
  let pbxproj_path :=
    os_path_join (os_path_join project_dir "hamrah-ios.xcodeproj") "project.pbxproj" in
  disk w !! pbxproj_path = Some (File content) ->
  utf8_valid content = true ->
  disk w !! (pbxproj_path +:+ ".backup") <> Some Dir ->
  fst (update_project_configuration project_dir w) = Ok true
  /\ disk (snd (update_project_configuration project_dir w)) =
     <[ pbxproj_path +:+ ".backup" := File (universal_newlines content) ]> (disk w).
Proof.
  intros pbxproj_path Hfile Hvalid Hnodir.
  unfold update_project_configuration. fold pbxproj_path.
  unfold bind, os_path_exists, read_text, write_text, print, ret. simpl.
  rewrite Hfile. simpl. rewrite Hfile, Hvalid. simpl.
  destruct (disk w !! (pbxproj_path +:+ ".backup")) as [[c|]|]; simpl;
    [split; reflexivity | now destruct Hnodir | split; reflexivity].
Qed.

(** C10 fails on the code: for a descriptor with CR LF line ends the function
    returns True and leaves the descriptor as it is, but the backup holds LF
    line ends: it is not a byte-identical copy. *)
Theorem backup_not_byte_identical :
  fst (update_project_configuration "/proj" (World crlf_disk [])) = Ok true
  /\ disk (snd (update_project_configuration "/proj" (World crlf_disk [])))
       !! "/proj/hamrah-ios.xcodeproj/project.pbxproj" = Some (File crlf_project)
  /\ disk (snd (update_project_configuration "/proj" (World crlf_disk [])))
       !! "/proj/hamrah-ios.xcodeproj/project.pbxproj.backup"
     = Some (File (text [ "// !$*UTF8*$!"; nl; "{"; nl; "}"; nl ]))
  /\ text [ "// !$*UTF8*$!"; nl; "{"; nl; "}"; nl ] <> crlf_project.
Proof.
  split; [vm_compute; reflexivity|].
  split; [vm_compute; reflexivity|].
  split; [vm_compute; reflexivity|].
  intros H. apply (f_equal String.length) in H. vm_compute in H. discriminate H.
Qed.

End Configure.

(** ** The scan of [re.sub] *)

Section Scan.
Import Re.









Variable p : pattern.
Variable repl : rmatch -> string.




End Scan.

Section Literal.
Import Re.




End Literal.

Section FileReferences.
Import Re FixXcodeProject.



End FileReferences.

(** ** Greedy repetitions *)

Section Greedy.
Import Re.
Variable cls : ascii -> bool.
Variable k : cont.




End Greedy.


(** ** White space *)

Section Spaces.
Import Re.







Variable k : cont.

(** The repetition stops before a text that does not start with white space. *)
Lemma spaces_stop (s : string) (least i : nat) (m : marks) :
  space_width s = 0 ->
  spaces k least s i m = match least with O => k s i m | S _ => None end.
Proof.
  unfold space_width. destruct s as [|c1 [|c2 [|c3 s3]]]; cbn [spaces].
  - reflexivity.
  - now destruct (is_space c1).
  - destruct (is_space c1); [discriminate|]. now destruct (is_space2 c1 c2).
  - destruct (is_space c1); [discriminate|].
    destruct (is_space2 c1 c2); [discriminate|]. now destruct (is_space3 c1 c2 c3).
Qed.


(** One more white space character of one, two or three bytes. *)
Lemma spaces_one (c1 : ascii) (s : string) (least i : nat) (m : marks) :
  is_space c1 = true ->
  spaces k least (String c1 s) i m =
  match spaces k (Nat.pred least) s (1 + i) m with
  | Some r => Some r
  | None => match least with O => k (String c1 s) i m | S _ => None end
  end.
Proof. intros H. cbn [spaces]. now rewrite H. Qed.

Lemma spaces_two (c1 c2 : ascii) (s : string) (least i : nat) (m : marks) :
  is_space c1 = false -> is_space2 c1 c2 = true ->
  spaces k least (String c1 (String c2 s)) i m =
  match spaces k (Nat.pred least) s (2 + i) m with
  | Some r => Some r
  | None => match least with O => k (String c1 (String c2 s)) i m | S _ => None end
  end.
Proof. intros H1 H2. cbn [spaces]. now rewrite H1, H2. Qed.

Lemma spaces_three (c1 c2 c3 : ascii) (s : string) (least i : nat) (m : marks) :
  is_space c1 = false -> is_space2 c1 c2 = false -> is_space3 c1 c2 c3 = true ->
  spaces k least (String c1 (String c2 (String c3 s))) i m =
  match spaces k (Nat.pred least) s (3 + i) m with
  | Some r => Some r
  | None =>
      match least with
      | O => k (String c1 (String c2 (String c3 s))) i m
      | S _ => None
      end
  end.
Proof. intros H1 H2 H3. cbn [spaces]. now rewrite H1, H2, H3. Qed.


(** The repetition reads a beginning of the text, and the rest of the
    pattern reads on from there. *)
Lemma spaces_reads (s : string) :
  forall (least i : nat) (m : marks) (r : nat * marks),
    spaces k least s i m = Some r ->
    exists (x s' : string) (i' : nat), s = x +:+ s' /\ k s' i' m = Some r.
Proof.
  assert (Hstop : forall (t : string) (least i : nat) (m : marks) (r : nat * marks),
             match least with O => k t i m | S _ => None end = Some r ->
             exists (x s' : string) (i' : nat), t = x +:+ s' /\ k s' i' m = Some r).
  { intros t [|least] i m r H; [|discriminate H]. now exists EmptyString, t, i. }
  assert (Hmore : forall (x t : string) (least i j : nat) (m : marks) (r : nat * marks),
             (forall r', spaces k (Nat.pred least) t j m = Some r' ->
                exists (x' s' : string) (i' : nat),
                  t = x' +:+ s' /\ k s' i' m = Some r') ->
             match spaces k (Nat.pred least) t j m with
             | Some r' => Some r'
             | None => match least with O => k (x +:+ t) i m | S _ => None end
             end = Some r ->
             exists (x' s' : string) (i' : nat),
               x +:+ t = x' +:+ s' /\ k s' i' m = Some r).
  { intros x t least i j m r IH H.
    destruct (spaces k (Nat.pred least) t j m) as [r'|] eqn:Hdeep.
    - injection H as ->. destruct (IH r eq_refl) as (x' & s' & i' & -> & Hk).
      exists (x +:+ x'), s', i'. now rewrite append_assoc.
    - now apply (Hstop _ least i m r). }
  assert (Hall : forall (n : nat) (t : string), String.length t <= n ->
             forall (least i : nat) (m : marks) (r : nat * marks),
               spaces k least t i m = Some r ->
               exists (x s' : string) (i' : nat), t = x +:+ s' /\ k s' i' m = Some r).
  { induction n as [|n IH]; intros t Hlen least i m r H.
    - destruct t; [|simpl in Hlen; lia]. cbn [spaces] in H. now apply (Hstop _ least i m r).
    - destruct (space_width t) as [|w] eqn:Hw.
      + rewrite spaces_stop in H by exact Hw. now apply (Hstop _ least i m r).
      + unfold space_width in Hw. destruct t as [|c1 t1]; [discriminate Hw|].
        destruct (is_space c1) eqn:H1.
        { rewrite spaces_one in H by exact H1.
          apply (Hmore (String c1 EmptyString) t1 least i (1 + i) m r); [|exact H].
          intros r'. apply IH. simpl in Hlen. lia. }
        destruct t1 as [|c2 t2]; [discriminate Hw|].
        destruct (is_space2 c1 c2) eqn:H2.
        { rewrite spaces_two in H by assumption.
          apply (Hmore (String c1 (String c2 EmptyString)) t2 least i (2 + i) m r);
            [|exact H].
          intros r'. apply IH. simpl in Hlen. lia. }
        destruct t2 as [|c3 t3]; [discriminate Hw|].
        destruct (is_space3 c1 c2 c3) eqn:H3; [|discriminate Hw].
        rewrite spaces_three in H by assumption.
        apply (Hmore (String c1 (String c2 (String c3 EmptyString))) t3 least i (3 + i) m r);
          [|exact H].
        intros r'. apply IH. simpl in Hlen. lia. }
  intros least i m r. now apply (Hall (String.length s)).
Qed.


End Spaces.

Section Needs.
Import Re.


End Needs.

(** ** The settings rewrite *)

Section Settings.
Import Re FixXcodeProject.



Lemma settings_block_pattern_eq (anchor : string) :
  settings_block_pattern anchor =
  (Open 1 :: lit anchor ++ Rep (is_not "}") 1 :: settings_tail)%list.
Proof.
  unfold settings_block_pattern, seq, group. simpl.
  rewrite <- !app_assoc. reflexivity.
Qed.



Lemma rep_take_one (cls : ascii -> bool) (k : cont) (c : ascii) (s : string)
    (i : nat) (m : marks) (r : nat * marks) :
  cls c = true ->
  rep cls k 0 s (S i) m = Some r ->
  rep cls k 0 (String c s) i m = Some r.
Proof. intros Hc Hs. cbn [rep Nat.pred]. now rewrite Hc, Hs. Qed.

















End Settings.

(** ** More on the orchestrator *)

Section Frame.
Import Os.
Context {E : Type} (P : string -> Prop).

Lemma keeps_ret {A : Type} (a : A) : keeps (E := E) P (ret a).
Proof. intros w p _. reflexivity. Qed.

Lemma keeps_raise {A : Type} (r : result A) : keeps (E := E) P (lift r).
Proof. intros w p _. reflexivity. Qed.

Lemma keeps_print (x : E) : keeps P (print x).
Proof. intros w p _. reflexivity. Qed.

Lemma keeps_exists (path : string) : keeps (E := E) P (os_path_exists path).
Proof. intros w p _. reflexivity. Qed.

Lemma keeps_bind {A B : Type} (c : M E A) (k : A -> M E B) :
  keeps P c -> (forall a, keeps P (k a)) -> keeps P (bind c k).
Proof.
  intros Hc Hk w p Hp. unfold bind. specialize (Hc w p Hp).
  destruct (c w) as [[a|e] w']; simpl in *; [|exact Hc].
  rewrite (Hk a w' p Hp). exact Hc.
Qed.

Lemma keeps_try {A : Type} (body : M E A) (handler : exn -> M E A) :
  keeps P body -> (forall e, keeps P (handler e)) -> keeps P (try_except body handler).
Proof.
  intros Hc Hk w p Hp. unfold try_except. specialize (Hc w p Hp).
  destruct (body w) as [[a|e] w']; simpl in *; [exact Hc|].
  rewrite (Hk e w' p Hp). exact Hc.
Qed.

Lemma keeps_read (path : string) : keeps (E := E) P (read_text path).
Proof.
  intros w p _. unfold read_text.
  destruct (disk w !! path) as [[c|]|]; try reflexivity. now destruct (utf8_valid c).
Qed.

Lemma keeps_write (path content : string) :
  P path -> keeps (E := E) P (write_text path content).
Proof.
  intros Hpath w p Hp. unfold write_text.
  destruct (disk w !! path) as [[c|]|]; simpl; try reflexivity;
    apply lookup_insert_ne; intros ->; now apply Hp.
Qed.

Lemma keeps_copy2 (src dst : string) :
  P dst -> P (os_path_join dst (basename src)) -> keeps (E := E) P (copy2 src dst).
Proof.
  intros Hdst Hin w p Hp. unfold copy2.
  destruct (disk w !! src) as [[c|]|]; simpl; try reflexivity.
  set (target := match disk w !! dst with
                 | Some Dir => os_path_join dst (basename src)
                 | _ => dst end).
  assert (Ht : P target)
    by (unfold target; destruct (disk w !! dst) as [[c'|]|]; assumption).
  destruct (disk w !! target) as [[c'|]|]; simpl; try reflexivity;
    apply lookup_insert_ne; intros ->; now apply Hp.
Qed.

End Frame.

Section OrchestratorMore.
Import Os FixXcodeProject.

Lemma run_steps_keeps (P : string -> Prop) (steps : list step) (content : string) :
  keeps P (run_steps steps content).
Proof.
  intros w p _. now rewrite run_steps_spec.
Qed.

(** X1: a run of [main], whatever its steps do, writes at most to the
    descriptor, to the backup, and to a copy inside either of them when it is
    a directory; every other path of the disk is as before. *)
Theorem main_writes_only (steps : list step) (w : world message) (p : string) :
  p <> project_path ->
  p <> backup_path ->
  p <> os_path_join backup_path "project.pbxproj" ->
  p <> os_path_join project_path "project.pbxproj.backup" ->
  disk (snd (main_with steps w)) !! p = disk w !! p.
Proof.
  intros H1 H2 H3 H4.
  assert (Hp : ~ main_writes p) by (intros [?|[?|[?|?]]]; contradiction).
  clear H1 H2 H3 H4. revert w p Hp. change (keeps main_writes (main_with steps)).
  unfold main_with.
  apply keeps_bind; [apply keeps_print|]. intros _.
  apply keeps_bind; [apply keeps_exists|]. intros found.
  destruct (negb found).
  - apply keeps_bind; [apply keeps_print|]. intros _. apply keeps_ret.
  - apply keeps_try.
    + unfold try_block, backup_project, read_project_file, write_project_file.
      repeat (first [ apply keeps_bind; [|intros ?] | apply keeps_print
                    | apply keeps_ret | apply keeps_read | apply run_steps_keeps
                    | apply keeps_write; left; reflexivity
                    | apply keeps_copy2; [right; left; reflexivity
                                         | right; right; left; reflexivity] ]).
    + intros e. unfold except_block.
      apply keeps_bind; [apply keeps_print|]. intros _.
      apply keeps_bind; [apply keeps_print|]. intros _.
      apply keeps_bind; [apply keeps_exists|]. intros saved.
      apply keeps_bind; [|intros ?; apply keeps_ret].
      destruct saved; [|apply keeps_ret].
      apply keeps_bind; [|intros ?; apply keeps_print].
      apply keeps_copy2; [left; reflexivity | right; right; right; reflexivity].
Qed.

Lemma main_writes_only_witness :
  disk (snd (main_with failing_steps (World (project_disk sample_project) [])))
    !! "README.md"
  = disk (World (project_disk sample_project) ([] : list message)) !! "README.md".
Proof.
  apply (main_writes_only failing_steps (World (project_disk sample_project) [])
           "README.md");
    intros H; apply String.eqb_eq in H; vm_compute in H; discriminate H.
Defined.

Lemma apply_steps_fixes (content : string) :
  apply_steps fixes content = Ok (apply_fixes content).
Proof. reflexivity. Qed.

Lemma project_dir_ne_project : "hamrah-ios.xcodeproj" <> project_path.
Proof. intros H. apply String.eqb_eq in H. vm_compute in H. discriminate H. Qed.

Lemma project_dir_ne_backup : "hamrah-ios.xcodeproj" <> backup_path.
Proof. intros H. apply String.eqb_eq in H. vm_compute in H. discriminate H. Qed.

(** A run whose steps succeed. *)
Lemma main_with_success (steps : list step) (w : world message) (bytes out : string) :
  is_Some (disk w !! "hamrah-ios.xcodeproj") ->
  disk w !! project_path = Some (File bytes) ->
  utf8_valid bytes = true ->
  disk w !! backup_path <> Some Dir ->
  apply_steps steps (universal_newlines bytes) = Ok out ->
  main_with steps w =
  (Ok true,
   World (<[project_path := File out]> (<[backup_path := File bytes]> (disk w)))
         (printed w ++ [Fixing_configuration; Backed_up backup_path; Reading_configuration]
          ++ step_lines steps (universal_newlines bytes)
          ++ [Updated_project_file; Successfully_fixed])).
Proof.
  intros [d Hdir] Hfile Hvalid Hnodir Hout.
  unfold main_with, bind at 1 2, print at 1, os_path_exists. simpl.
  rewrite Hdir. simpl.
  set (w1 := World (disk w) (printed w ++ [Fixing_configuration])).
  unfold try_except, try_block, bind at 1.
  rewrite (backup_project_ok w1 bytes Hfile Hnodir).
  unfold bind at 1 2, print at 1, read_project_file, read_text. simpl.
  rewrite lookup_insert_ne by (apply not_eq_sym, project_ne_backup).
  rewrite Hfile, Hvalid. unfold bind at 1. rewrite run_steps_spec, Hout. simpl.
  unfold bind, write_project_file, write_text, bind, print, ret. simpl.
  rewrite lookup_insert_ne by (apply not_eq_sym, project_ne_backup).
  rewrite Hfile. simpl. f_equal. f_equal.
  rewrite <- !app_assoc. reflexivity.
Qed.

(** X2: when the project directory exists, the descriptor is a file of UTF-8
    bytes and the backup path is not a directory, [main] returns True, the
    descriptor holds the patched text of what was read (line ends
    normalised), and the backup holds the bytes the descriptor had. *)
Theorem main_patches_and_keeps_backup (w : world message) (bytes : string) :
  is_Some (disk w !! "hamrah-ios.xcodeproj") ->
  disk w !! project_path = Some (File bytes) ->
  utf8_valid bytes = true ->
  disk w !! backup_path <> Some Dir ->
  fst (main w) = Ok true
  /\ disk (snd (main w)) !! project_path
     = Some (File (apply_fixes (universal_newlines bytes)))
  /\ disk (snd (main w)) !! backup_path = Some (File bytes).
Proof.
  intros Hdir Hfile Hvalid Hnodir. unfold main.
  rewrite (main_with_success fixes w bytes _ Hdir Hfile Hvalid Hnodir
             (apply_steps_fixes _)).
  cbn [fst snd disk]. split; [reflexivity|]. split.
  - apply lookup_insert_eq.
  - rewrite lookup_insert_ne by apply project_ne_backup.
    apply lookup_insert_eq.
Qed.

Lemma main_patches_and_keeps_backup_witness :
  fst (main (World (project_disk crlf_project) [])) = Ok true
  /\ disk (snd (main (World (project_disk crlf_project) []))) !! project_path
     = Some (File (apply_fixes (universal_newlines crlf_project)))
  /\ disk (snd (main (World (project_disk crlf_project) []))) !! backup_path
     = Some (File crlf_project).
Proof.
  apply (main_patches_and_keeps_backup (World (project_disk crlf_project) []) crlf_project).
  - vm_compute. eexists. reflexivity.
  - vm_compute. reflexivity.
  - vm_compute. reflexivity.
  - vm_compute. discriminate.
Defined.

(** X3: after two runs in a row on a descriptor of UTF-8 bytes (as is the
    text that the first run writes) the backup holds the result of the first
    run, not the bytes the descriptor had at the start, and the descriptor
    holds the patch applied twice. *)
Theorem second_run_overwrites_backup (w : world message) (bytes : string) :
  is_Some (disk w !! "hamrah-ios.xcodeproj") ->
  disk w !! project_path = Some (File bytes) ->
  utf8_valid bytes = true ->
  utf8_valid (apply_fixes (universal_newlines bytes)) = true ->
  disk w !! backup_path <> Some Dir ->
  let first := apply_fixes (universal_newlines bytes) in
  fst (main (snd (main w))) = Ok true
  /\ disk (snd (main (snd (main w)))) !! backup_path = Some (File first)
  /\ disk (snd (main (snd (main w)))) !! project_path
     = Some (File (apply_fixes (universal_newlines first))).
Proof.
  intros Hdir Hfile Hvalid Hvalid1 Hnodir first. unfold main at 2 4 6.
  rewrite (main_with_success fixes w bytes _ Hdir Hfile Hvalid Hnodir
             (apply_steps_fixes _)).
  cbn [snd]. fold first.
  set (w1 := World _ _).
  assert (Hdir1 : is_Some (disk w1 !! "hamrah-ios.xcodeproj")).
  { unfold w1. cbn [disk].
    rewrite lookup_insert_ne by (apply not_eq_sym, project_dir_ne_project).
    rewrite lookup_insert_ne by (apply not_eq_sym, project_dir_ne_backup).
    exact Hdir. }
  assert (Hfile1 : disk w1 !! project_path = Some (File first))
    by (unfold w1; cbn [disk]; apply lookup_insert_eq).
  assert (Hnodir1 : disk w1 !! backup_path <> Some Dir).
  { unfold w1. cbn [disk].
    rewrite lookup_insert_ne by apply project_ne_backup.
    rewrite lookup_insert_eq. discriminate. }
  unfold main.
  rewrite (main_with_success fixes w1 first _ Hdir1 Hfile1 Hvalid1 Hnodir1
             (apply_steps_fixes _)).
  cbn [fst snd disk]. split; [reflexivity|]. split.
  - rewrite lookup_insert_ne by apply project_ne_backup. apply lookup_insert_eq.
  - apply lookup_insert_eq.
Qed.

Lemma main_with_stale_backup (steps : list step) (w : world message) (old : string) :
  is_Some (disk w !! "hamrah-ios.xcodeproj") ->
  disk w !! project_path = None ->
  disk w !! backup_path = Some (File old) ->
  main_with steps w =
  (Ok false,
   World (<[project_path := File old]> (disk w))
         (printed w ++ [Fixing_configuration;
                        Error_fixing (FileNotFoundError project_path);
                        Restoring_backup; Backup_restored])).
Proof.
  intros [d Hdir] Hnone Hb.
  unfold main_with, bind at 1 2, print at 1, os_path_exists. simpl.
  rewrite Hdir. simpl.
  unfold try_except, try_block, bind at 1, backup_project, bind at 1, copy2. simpl.
  rewrite Hnone. simpl.
  unfold except_block, bind, print, os_path_exists, copy2, ret. simpl.
  fold backup_path. fold project_path.
  repeat (rewrite ?Hb, ?Hnone; simpl).
  now rewrite <- !app_assoc.
Qed.

(** X4: when the descriptor is missing and a backup of an earlier run is
    left, [main] fails on the backup step, then "restores": it returns False
    and the only change is that the descriptor now holds the old backup. *)
Theorem stale_backup_becomes_descriptor (steps : list step) (w : world message)
    (old : string) :
  is_Some (disk w !! "hamrah-ios.xcodeproj") ->
  disk w !! project_path = None ->
  disk w !! backup_path = Some (File old) ->
  fst (main_with steps w) = Ok false
  /\ disk (snd (main_with steps w)) = <[project_path := File old]> (disk w).
Proof.
  intros Hdir Hnone Hb.
  rewrite (main_with_stale_backup steps w old Hdir Hnone Hb). split; reflexivity.
Qed.

Lemma stale_backup_becomes_descriptor_witness :
  fst (main_with fixes (World (stale_backup_disk sample_project) [])) = Ok false
  /\ disk (snd (main_with fixes (World (stale_backup_disk sample_project) [])))
     = <[project_path := File sample_project]>
         (disk (World (stale_backup_disk sample_project) ([] : list message))).
Proof.
  apply (stale_backup_becomes_descriptor fixes
           (World (stale_backup_disk sample_project) []) sample_project).
  - vm_compute. eexists. reflexivity.
  - vm_compute. reflexivity.
  - vm_compute. reflexivity.
Defined.

Lemma second_run_overwrites_backup_witness :
  let first := apply_fixes (universal_newlines sample_project) in
  fst (main (snd (main (World (project_disk sample_project) [])))) = Ok true
  /\ disk (snd (main (snd (main (World (project_disk sample_project) [])))))
       !! backup_path = Some (File first)
  /\ disk (snd (main (snd (main (World (project_disk sample_project) [])))))
       !! project_path = Some (File (apply_fixes (universal_newlines first))).
Proof.
  apply (second_run_overwrites_backup (World (project_disk sample_project) [])
           sample_project).
  - vm_compute. eexists. reflexivity.
  - vm_compute. reflexivity.
  - vm_compute. reflexivity.
  - vm_compute. reflexivity.
  - vm_compute. discriminate.
Defined.


End OrchestratorMore.

(** ** Texts without the anchors of the rules *)

Section Absent.
Import Re.

Lemma contains_later (a : string) (c : ascii) (s : string) :
  contains a s = true -> contains a (String c s) = true.
Proof. intros H. cbn [contains]. rewrite H. apply orb_true_r. Qed.

Lemma contains_tail (a : string) (c : ascii) (s : string) :
  contains a (String c s) = false -> contains a s = false.
Proof.
  intros H. destruct (contains a s) eqn:Hs; [|reflexivity].
  now rewrite (contains_later a c s Hs) in H.
Qed.

Lemma contains_head (a s : string) : starts_with a s = true -> contains a s = true.
Proof. intros H. destruct s; cbn [contains]; now rewrite H. Qed.

Lemma starts_with_append (a b s : string) :
  starts_with (a +:+ b) s = true -> starts_with a s = true.
Proof.
  revert s. induction a as [|x a IH]; intros s H; [now destruct s|].
  rewrite append_cons in H. destruct s as [|y s]; [discriminate H|].
  cbn [starts_with] in *. apply andb_true_iff in H as [Hx H].
  now rewrite Hx, (IH s H).
Qed.

(** A text that holds a longer literal holds its beginning. *)
Lemma contains_prefix (a b s : string) :
  contains (a +:+ b) s = true -> contains a s = true.
Proof.
  induction s as [|y s IH]; cbn [contains]; intros H.
  - rewrite orb_false_r in *. now apply starts_with_append in H.
  - apply orb_true_iff in H as [H|H].
    + now rewrite (starts_with_append a b _ H).
    + rewrite (IH H). apply orb_true_r.
Qed.

Lemma run_lit_starts (a : string) (q : pattern) :
  forall (s : string) (i : nat) (m : marks) (r : nat * marks),
    run (lit a ++ q)%list s i m = Some r -> starts_with a s = true.
Proof.
  induction a as [|x a IH]; intros s i m r H; [now destruct s|].
  destruct s as [|y s]; [discriminate H|]. simpl in H. cbn [starts_with].
  destruct (Ascii.eqb x y); [|discriminate H]. simpl. now apply (IH s (S i) m r).
Qed.

Lemma contains_after (a x s : string) :
  contains a s = true -> contains a (x +:+ s) = true.
Proof.
  intros H. induction x as [|c x IH]; [exact H|].
  rewrite append_cons. now apply contains_later.
Qed.

(** A pattern in which the literal [a] stands needs it, whatever items stand
    before it. *)
Lemma literal_needed (a : string) (q1 q2 : pattern) :
  needs_literal a (q1 ++ lit a ++ q2)%list.
Proof.
  induction q1 as [|it q1 IH]; intros s i m r H.
  - apply contains_head. now apply (run_lit_starts a q2 s i m r).
  - destruct it as [b|cls least|least|b|g|g]; cbn [app run] in H.
    + destruct s as [|y s]; [discriminate H|].
      destruct (Ascii.eqb b y); [|discriminate H].
      apply contains_later. now apply (IH s (S i) m r).
    + revert least i H. induction s as [|y s IHs]; intros least i H.
      * simpl in H. destruct least; [now apply (IH EmptyString i m r) | discriminate H].
      * cbn [rep] in H.
        destruct (cls y).
        -- destruct (rep cls _ (Nat.pred least) s (S i) m) as [r'|] eqn:Hdeep.
           ++ injection H as ->. apply contains_later.
              now apply (IHs (Nat.pred least) (S i)).
           ++ destruct least; [now apply (IH _ i m r) | discriminate H].
        -- destruct least; [now apply (IH _ i m r) | discriminate H].
    + apply spaces_reads in H as (x & s' & i' & -> & H).
      apply contains_after. now apply (IH s' i' m r).
    + destruct s as [|y s]; [now apply (IH _ i m r)|].
      destruct (Ascii.eqb b y); [|now apply (IH _ i m r)].
      destruct (run _ s (S i) m) as [r'|] eqn:Hdeep.
      * apply contains_later. now apply (IH s (S i) m r').
      * now apply (IH _ i m r).
    + exact (IH s i _ r H).
    + exact (IH s i _ r H).
Qed.

(** [re.sub] leaves a text without the needed literal as it is. *)
Lemma sub_absent (a : string) (p : pattern) (repl : rmatch -> string) (s : string) :
  needs_literal a p -> contains a s = false -> sub p repl s = s.
Proof.
  intros Hp. unfold sub.
  assert (Hnone : forall t, contains a t = false -> match_at p t = None).
  { intros t Ht. unfold match_at.
    destruct (run p t 0 no_marks) as [[e m]|] eqn:Hrun; [|reflexivity].
    now rewrite (Hp t 0 no_marks _ Hrun) in Ht. }
  induction s as [|y s IH]; intros Hs.
  - cbn [sub_from]. now rewrite (Hnone _ Hs).
  - cbn [sub_from]. rewrite (Hnone _ Hs). f_equal. apply IH.
    now apply contains_tail in Hs.
Qed.

Section RulesAbsent.
Import FixXcodeProject.

Lemma settings_pattern_needs (anchor : string) :
  needs_literal anchor (settings_block_pattern anchor).
Proof.
  rewrite settings_block_pattern_eq.
  apply (literal_needed anchor [Open 1] (Rep (is_not "}") 1 :: settings_tail)).
Qed.

Lemma settings_absent (s : string) :
  contains "5FEXTDBG0001" s = false -> contains "5FEXTREL0001" s = false ->
  fix_shareextension_target_settings s = s.
Proof.
  intros Hd Hr. unfold fix_shareextension_target_settings, sub_template.
  rewrite (sub_absent "5FEXTDBG0001" debug_config_pattern _ s
             (settings_pattern_needs _) Hd).
  apply (sub_absent "5FEXTREL0001" release_config_pattern _ s
           (settings_pattern_needs _) Hr).
Qed.

Lemma file_references_absent (s : string) :
  contains old_prefix s = false -> fix_file_references s = s.
Proof.
  intros H. unfold fix_file_references, patterns_replacements, sub_template.
  cbn [fold_left fst snd].
  rewrite (sub_absent old_prefix _ _ s
             (literal_needed old_prefix [] (lit "ShareViewController.swift")) H).
  rewrite (sub_absent old_prefix _ _ s
             (literal_needed old_prefix [] (lit "Info.plist")) H).
  apply (sub_absent old_prefix _ _ s
           (literal_needed old_prefix []
              (lit "Utilities/ShareExtensionDataStack.swift")) H).
Qed.

Lemma main_target_list_needs (name : string) :
  needs_literal "3AC7BF752E4900DF00D7AA35" (main_target_list_pattern name).
Proof.
  unfold main_target_list_pattern, seq, group. cbn [concat].
  rewrite <- !app_assoc.
  apply (literal_needed "3AC7BF752E4900DF00D7AA35" [Open 1]).
Qed.

Lemma section_end_needs (kind : string) :
  needs_literal "/* End " (section_end_pattern kind).
Proof.
  unfold section_end_pattern, group.
  change (lit ("/* End " +:+ kind +:+ " section */"))
    with (lit "/* End " ++ lit (kind +:+ " section */"))%list.
  rewrite <- app_assoc.
  apply (literal_needed "/* End " [Open 1]).
Qed.

Lemma embedded_extension_absent (s : string) :
  contains "3AC7BF752E4900DF00D7AA35" s = false ->
  contains "/* End " s = false ->
  add_embedded_extension s = s.
Proof.
  intros Hid Hend.
  assert (Hins : forall kind section, insert_before_end kind section s = s).
  { intros kind section. unfold insert_before_end, sub_template.
    apply (sub_absent "/* End " _ _ s (section_end_needs kind) Hend). }
  unfold add_embedded_extension.
  rewrite (sub_absent _ main_target_pattern _ s (main_target_list_needs _) Hid).
  assert (H1 : (if negb (contains "5FEXTDEP0001" s)
                then let content := insert_before_end "PBXTargetDependency"
                                      dependency_section s in
                     if negb (contains "5FEXTPRX0001" content)
                     then insert_before_end "PBXContainerItemProxy" proxy_section content
                     else content
                else s) = s).
  { cbv zeta. rewrite !Hins. now destruct (contains "5FEXTDEP0001" s),
      (contains "5FEXTPRX0001" s). }
  cbv zeta. cbv zeta in H1. rewrite H1.
  rewrite (sub_absent _ embed_phase_pattern _ s (main_target_list_needs _) Hid).
  rewrite !Hins.
  now destruct (contains "5FEXTBED0001" s), (contains "5FEXTBLD0001" s).
Qed.

Lemma resources_entry_needs (name : string) :
  needs_literal "Resources" (resources_entry_pattern name).
Proof.
  assert (Heq : resources_entry_pattern name =
                ((star_space ++ plus is_upper_hex ++ star_space ++ lit "/*"
                  ++ star_space ++ lit name ++ star_space ++ lit "in"
                  ++ star_space)
                 ++ lit "Resources"
                 ++ (star_space ++ lit "*/" ++ [Opt ","] ++ star_space
                     ++ lit nl))%list).
  { unfold resources_entry_pattern, seq. cbn [concat].
    rewrite <- !app_assoc, app_nil_r. reflexivity. }
  rewrite Heq. apply literal_needed.
Qed.

Lemma resources_absent (s : string) :
  contains "Resources" s = false ->
  remove_shareextension_from_main_app_resources s = s.
Proof.
  intros H. unfold remove_shareextension_from_main_app_resources, sub_template.
  rewrite (sub_absent "Resources" shareext_info_pattern _ s (resources_entry_needs _) H).
  apply (sub_absent "Resources" shareext_dir_pattern _ s (resources_entry_needs _) H).
Qed.

Lemma sync_group_needs : needs_literal "5FMAINGRP0001" sync_group_pattern.
Proof.
  unfold sync_group_pattern, seq, group. cbn [concat].
  rewrite <- !app_assoc.
  apply (literal_needed "5FMAINGRP0001" [Open 1]).
Qed.

Lemma sync_groups_absent (s : string) :
  contains "5FMAINGRP0001" s = false -> fix_file_system_sync_groups s = s.
Proof.
  intros H. apply (sub_absent "5FMAINGRP0001" _ _ s sync_group_needs H).
Qed.

(** X5: a text that holds none of the anchors of the rules (the two
    configuration IDs, the old source directory, the main target ID, a
    section end marker, a Resources entry, the sync group ID) is left
    unchanged by the whole patch sequence. *)
Theorem apply_fixes_without_anchor (s : string) :
  no_anchor s = true -> apply_fixes s = s.
Proof.
  unfold no_anchor. intros H.
  repeat (apply andb_true_iff in H as [H ?]).
  repeat match goal with
         | Hc : negb (contains _ _) = true |- _ => apply negb_true_iff in Hc
         end.
  unfold apply_fixes.
  rewrite settings_absent by assumption.
  rewrite file_references_absent by assumption.
  rewrite embedded_extension_absent by assumption.
  rewrite resources_absent by assumption.
  now apply sync_groups_absent.
Qed.

Lemma apply_fixes_without_anchor_witness :
  apply_fixes (text [ "// !$*UTF8*$!"; nl; "{"; line 1 "archiveVersion = 1;"; nl; "}"; nl ])
  = text [ "// !$*UTF8*$!"; nl; "{"; line 1 "archiveVersion = 1;"; nl; "}"; nl ].
Proof.
  apply (apply_fixes_without_anchor
           (text [ "// !$*UTF8*$!"; nl; "{"; line 1 "archiveVersion = 1;"; nl; "}"; nl ])).
  vm_compute. reflexivity.
Defined.

End RulesAbsent.

End Absent.

(** ** Configuration objects *)

Section Blocks.
Import Re FixXcodeProject.









End Blocks.

(** ** The removal of resource entries *)

Section Deletion.
Import Re FixXcodeProject.

Lemma deletion_refl (s : string) : deletion s s.
Proof. induction s; constructor; assumption. Qed.

Lemma deletion_trans (a b c : string) :
  deletion a b -> deletion b c -> deletion a c.
Proof.
  intros Hab Hbc. revert a Hab.
  induction Hbc as [|x b c Hbc IH|x b c Hbc IH]; intros a Hab.
  - exact Hab.
  - inversion Hab; subst.
    + constructor. now apply IH.
    + apply deletion_drop. now apply IH.
  - apply deletion_drop. now apply IH.
Qed.

Lemma deletion_length (a s : string) :
  deletion a s -> String.length a <= String.length s.
Proof. induction 1; simpl; lia. Qed.

(** [re.sub] with the empty text as replacement only leaves characters out. *)
Lemma sub_from_empty_deletes (p : pattern) (repl : rmatch -> string) :
  (forall mt, repl mt = EmptyString) ->
  forall (s : string) (skip : nat), deletion (sub_from p repl s skip) s.
Proof.
  intros Hrepl. induction s as [|c s IH]; intros skip.
  - destruct skip; cbn [sub_from]; [|constructor].
    destruct (match_at p EmptyString); [rewrite Hrepl|]; constructor.
  - destruct skip as [|k]; cbn [sub_from].
    + destruct (match_at p (String c s)) as [mt|].
      * rewrite Hrepl, append_nil_l.
        destruct (m_len mt); [apply deletion_keep | apply deletion_drop]; apply IH.
      * apply deletion_keep, IH.
    + apply deletion_drop, IH.
Qed.

(** X7: [remove_shareextension_from_main_app_resources] only leaves
    characters out: its result is the content with some characters deleted,
    in the same order, and is never longer than the content. *)
Theorem resources_removal_only_deletes (content : string) :
  deletion (remove_shareextension_from_main_app_resources content) content
  /\ String.length (remove_shareextension_from_main_app_resources content)
     <= String.length content.
Proof.
  assert (H : deletion (remove_shareextension_from_main_app_resources content) content).
  { unfold remove_shareextension_from_main_app_resources, sub_template, sub.
    eapply deletion_trans; apply sub_from_empty_deletes; reflexivity. }
  split; [exact H | now apply deletion_length].
Qed.

End Deletion.

(** ** configure_share_extension.py: the update of the property list *)

Section PlistUpdate.
Import ConfigureScript.

Ltac string_ne :=
  let H := fresh in
  intros H; apply String.eqb_eq in H; vm_compute in H; discriminate H.

Ltac solve_lookup :=
  repeat first [ apply lookup_insert_eq | rewrite lookup_insert_ne by string_ne ].

Lemma set_item_dict (key : string) (item : plist) (d : gmap string plist) :
  set_item key item (PDict d) = inr (PDict (<[key := item]> d)).
Proof. reflexivity. Qed.

(** On a value of the shape it can work on, the update gives the merged
    dictionary. *)
Lemma update_plist_data_merged (d : gmap string plist) :
  well_shaped (PDict d) = true ->
  update_plist_data (PDict d) = inr (PDict (new_plist_data d)).
Proof.
  intros Hshape. unfold update_plist_data. rewrite !set_item_dict.
  unfold setdefault_dict.
  rewrite !lookup_insert_ne by string_ne.
  unfold new_plist_data, new_extension, new_attributes, old_attributes, old_extension.
  cbn [well_shaped] in Hshape.
  destruct (d !! "NSExtension") as [[| | | | |e]|] eqn:He; try discriminate Hshape.
  - unfold update_extension. rewrite !set_item_dict. unfold setdefault_dict.
    rewrite !lookup_insert_ne by string_ne. cbn [dict_of].
    destruct (e !! "NSExtensionAttributes") as [[| | | | |a]|] eqn:Ha;
      try discriminate Hshape; reflexivity.
  - unfold update_extension. rewrite !set_item_dict. unfold setdefault_dict.
    rewrite !lookup_insert_ne by string_ne. cbn [dict_of].
    rewrite lookup_empty. reflexivity.
Qed.

Lemma update_plist_data_misshaped (plist_data : plist) :
  well_shaped plist_data = false -> update_plist_data plist_data = inl TypeError.
Proof.
  intros Hshape. destruct plist_data as [| | | | |d]; try reflexivity.
  unfold update_plist_data. rewrite !set_item_dict. unfold setdefault_dict.
  rewrite !lookup_insert_ne by string_ne.
  cbn [well_shaped] in Hshape.
  destruct (d !! "NSExtension") as [[| | | | |e]|] eqn:He;
    try discriminate Hshape; try reflexivity.
  unfold update_extension. rewrite !set_item_dict. unfold setdefault_dict.
  rewrite !lookup_insert_ne by string_ne.
  destruct (e !! "NSExtensionAttributes") as [[| | | | |a]|] eqn:Ha;
    try discriminate Hshape; reflexivity.
Qed.

(** A successful update started from a well-shaped dictionary. *)
Lemma update_plist_data_ok (plist_data updated : plist) :
  update_plist_data plist_data = inr updated ->
  well_shaped plist_data = true
  /\ plist_data = PDict (dict_of plist_data)
  /\ updated = PDict (new_plist_data (dict_of plist_data)).
Proof.
  intros Hupdate.
  destruct (well_shaped plist_data) eqn:Hshape.
  - destruct plist_data as [| | | | |d]; try discriminate Hshape.
    rewrite (update_plist_data_merged d Hshape) in Hupdate.
    injection Hupdate as <-. repeat split; reflexivity.
  - rewrite (update_plist_data_misshaped _ Hshape) in Hupdate. discriminate Hupdate.
Qed.

Lemma new_plist_data_extension (d : gmap string plist) :
  old_extension (new_plist_data d) = new_extension d.
Proof.
  unfold old_extension, new_plist_data. now rewrite lookup_insert_eq.
Qed.

Lemma new_plist_data_attributes (d : gmap string plist) :
  old_attributes (new_plist_data d) = new_attributes d.
Proof.
  unfold old_attributes. rewrite new_plist_data_extension.
  unfold new_extension. now rewrite lookup_insert_eq.
Qed.

Lemma new_plist_data_shaped (d : gmap string plist) :
  well_shaped (PDict (new_plist_data d)) = true.
Proof.
  unfold well_shaped, new_plist_data. rewrite lookup_insert_eq.
  unfold new_extension. now rewrite lookup_insert_eq.
Qed.

Lemma new_plist_data_again (d : gmap string plist) :
  new_plist_data (new_plist_data d) = new_plist_data d.
Proof.
  assert (Ha : new_attributes (new_plist_data d) = new_attributes d).
  { unfold new_attributes at 1. rewrite new_plist_data_attributes.
    unfold new_attributes.
    now repeat (rewrite insert_id by solve_lookup). }
  assert (He : new_extension (new_plist_data d) = new_extension d).
  { unfold new_extension at 1. rewrite new_plist_data_extension, Ha.
    unfold new_extension.
    now repeat (rewrite insert_id by solve_lookup). }
  unfold new_plist_data at 1. rewrite He.
  unfold new_plist_data.
  now repeat (rewrite insert_id by solve_lookup).
Qed.

(** X8: the update of the property list is idempotent: applied to its own
    result it succeeds and changes nothing. *)
Theorem update_plist_data_idempotent (plist_data updated : plist) :
  update_plist_data plist_data = inr updated ->
  update_plist_data updated = inr updated.
Proof.
  intros Hupdate. apply update_plist_data_ok in Hupdate as (_ & _ & ->).
  rewrite update_plist_data_merged by apply new_plist_data_shaped.
  now rewrite new_plist_data_again.
Qed.

Lemma update_plist_data_idempotent_witness :
  update_plist_data (PDict (new_plist_data empty)) = inr (PDict (new_plist_data empty)).
Proof.
  apply (update_plist_data_idempotent (PDict empty)). reflexivity.
Defined.

(** X9: the update fails exactly on a value that is not well shaped, with a
    TypeError, and succeeds on every other value. *)
Theorem update_plist_data_type_error (plist_data : plist) :
  (update_plist_data plist_data = inl TypeError <-> well_shaped plist_data = false)
  /\ ((exists updated, update_plist_data plist_data = inr updated)
      <-> well_shaped plist_data = true).
Proof.
  destruct (well_shaped plist_data) eqn:Hshape.
  - destruct plist_data as [| | | | |d]; try discriminate Hshape.
    rewrite (update_plist_data_merged d Hshape). split; split;
      try discriminate; try reflexivity.
    intros _. now eexists.
  - rewrite (update_plist_data_misshaped _ Hshape). split; split;
      try reflexivity; try discriminate.
    intros [updated H]. discriminate H.
Qed.

(** X10: after a successful update the property list holds the values of the
    share extension: the three bundle values, the extension point and the
    principal class in [NSExtension], the four activation rules in
    [NSExtensionAttributes]. *)
Theorem update_plist_data_assigns (plist_data updated : plist) :
  update_plist_data plist_data = inr updated ->
  exists d e a : gmap string plist,
    updated = PDict d
    /\ d !! "CFBundleDisplayName" = Some (PString "Hamrah Share")
    /\ d !! "CFBundleVersion" = Some (PString "1")
    /\ d !! "CFBundleShortVersionString" = Some (PString "1.0")
    /\ d !! "NSExtension" = Some (PDict e)
    /\ e !! "NSExtensionPointIdentifier" = Some (PString "com.apple.share-services")
    /\ e !! "NSExtensionPrincipalClass"
       = Some (PString "$(PRODUCT_MODULE_NAME).ShareViewController")
    /\ e !! "NSExtensionAttributes" = Some (PDict a)
    /\ a !! "NSExtensionActivationSupportsWebURLWithMaxCount" = Some (PInteger 1)
    /\ a !! "NSExtensionActivationSupportsURLWithMaxCount" = Some (PInteger 1)
    /\ a !! "NSExtensionActivationSupportsText" = Some (PBool true)
    /\ a !! "NSExtensionActivationSupportsAttachmentWithMaxCount" = Some (PInteger 1).
Proof.
  intros Hupdate. apply update_plist_data_ok in Hupdate as (_ & _ & ->).
  exists (new_plist_data (dict_of plist_data)), (new_extension (dict_of plist_data)),
    (new_attributes (dict_of plist_data)).
  unfold new_plist_data, new_extension, new_attributes.
  repeat split;
    repeat first [ apply lookup_insert_eq
                 | rewrite lookup_insert_ne by string_ne ].
Qed.

Lemma update_plist_data_assigns_witness :
  exists d e a : gmap string plist,
    PDict (new_plist_data empty) = PDict d
    /\ d !! "CFBundleDisplayName" = Some (PString "Hamrah Share")
    /\ d !! "CFBundleVersion" = Some (PString "1")
    /\ d !! "CFBundleShortVersionString" = Some (PString "1.0")
    /\ d !! "NSExtension" = Some (PDict e)
    /\ e !! "NSExtensionPointIdentifier" = Some (PString "com.apple.share-services")
    /\ e !! "NSExtensionPrincipalClass"
       = Some (PString "$(PRODUCT_MODULE_NAME).ShareViewController")
    /\ e !! "NSExtensionAttributes" = Some (PDict a)
    /\ a !! "NSExtensionActivationSupportsWebURLWithMaxCount" = Some (PInteger 1)
    /\ a !! "NSExtensionActivationSupportsURLWithMaxCount" = Some (PInteger 1)
    /\ a !! "NSExtensionActivationSupportsText" = Some (PBool true)
    /\ a !! "NSExtensionActivationSupportsAttachmentWithMaxCount" = Some (PInteger 1).
Proof.
  apply (update_plist_data_assigns (PDict empty)). reflexivity.
Defined.

Lemma one_of_cons (key : string) (keys : list string) (k : string) :
  one_of (key :: keys) k = false -> key <> k /\ one_of keys k = false.
Proof.
  unfold one_of. cbn [existsb]. intros H. apply orb_false_iff in H as [Hk H].
  split; [|exact H]. intros ->. now rewrite String.eqb_refl in Hk.
Qed.

(** X11: a successful update keeps every key it does not assign, with its
    value, at each of the three levels: in the property list, in
    [NSExtension] and in [NSExtensionAttributes]. *)
Theorem update_plist_data_keeps_other_keys (plist_data updated : plist) (k : string) :
  update_plist_data plist_data = inr updated ->
  (one_of top_keys k = false -> dict_of updated !! k = dict_of plist_data !! k)
  /\ (one_of extension_keys k = false ->
      old_extension (dict_of updated) !! k = old_extension (dict_of plist_data) !! k)
  /\ (one_of attribute_keys k = false ->
      old_attributes (dict_of updated) !! k = old_attributes (dict_of plist_data) !! k).
Proof.
  intros Hupdate. apply update_plist_data_ok in Hupdate as (_ & _ & ->).
  cbn [dict_of]. rewrite new_plist_data_extension, new_plist_data_attributes.
  repeat split; intros Hk.
  - unfold top_keys in Hk.
    repeat (apply one_of_cons in Hk as [? Hk]).
    unfold new_plist_data. now rewrite !lookup_insert_ne by assumption.
  - unfold extension_keys in Hk.
    repeat (apply one_of_cons in Hk as [? Hk]).
    unfold new_extension. now rewrite !lookup_insert_ne by assumption.
  - unfold attribute_keys in Hk.
    repeat (apply one_of_cons in Hk as [? Hk]).
    unfold new_attributes. now rewrite !lookup_insert_ne by assumption.
Qed.

End PlistUpdate.

Lemma update_plist_data_keeps_other_keys_witness :
  (one_of top_keys "CFBundleName" = false ->
   dict_of (ConfigureScript.PDict
              (new_plist_data (<["CFBundleName" := ConfigureScript.PString "Hamrah"]> empty)))
     !! "CFBundleName"
   = dict_of (ConfigureScript.PDict
                (<["CFBundleName" := ConfigureScript.PString "Hamrah"]> empty))
       !! "CFBundleName")
  /\ (one_of extension_keys "CFBundleName" = false ->
      old_extension
        (dict_of (ConfigureScript.PDict
                    (new_plist_data
                       (<["CFBundleName" := ConfigureScript.PString "Hamrah"]> empty))))
        !! "CFBundleName"
      = old_extension
          (dict_of (ConfigureScript.PDict
                      (<["CFBundleName" := ConfigureScript.PString "Hamrah"]> empty)))
          !! "CFBundleName")
  /\ (one_of attribute_keys "CFBundleName" = false ->
      old_attributes
        (dict_of (ConfigureScript.PDict
                    (new_plist_data
                       (<["CFBundleName" := ConfigureScript.PString "Hamrah"]> empty))))
        !! "CFBundleName"
      = old_attributes
          (dict_of (ConfigureScript.PDict
                      (<["CFBundleName" := ConfigureScript.PString "Hamrah"]> empty)))
          !! "CFBundleName").
Proof.
  apply (update_plist_data_keeps_other_keys
           (ConfigureScript.PDict
              (<["CFBundleName" := ConfigureScript.PString "Hamrah"]> empty))).
  vm_compute. reflexivity.
Defined.

(** ** configure_share_extension.py: the paths *)

Section Paths.
Import Os.

Lemma append_inv_head (a x y : string) : a +:+ x = a +:+ y -> x = y.
Proof.
  induction a as [|c a IH]; [now rewrite !append_nil_l|].
  rewrite !append_cons. intros [= H]. now apply IH.
Qed.

Lemma nonempty_append (a b : string) : nonempty b = true -> nonempty (a +:+ b) = true.
Proof. destruct a; [now rewrite append_nil_l | reflexivity]. Qed.

Lemma ends_with_slash_append (a b : string) :
  nonempty b = true -> ends_with_slash (a +:+ b) = ends_with_slash b.
Proof.
  intros Hb. induction a as [|c a IH]; [now rewrite append_nil_l|].
  rewrite append_cons. unfold ends_with_slash in *. cbn [String.length].
  destruct (String.length (a +:+ b)) as [|n] eqn:Hlen.
  - rewrite length_append in Hlen. destruct b; [discriminate Hb | simpl in Hlen; lia].
  - rewrite <- IH. reflexivity.
Qed.

Lemma separator_append (a b : string) :
  nonempty b = true -> separator (a +:+ b) = separator b.
Proof.
  intros Hb. unfold separator.
  now rewrite nonempty_append, ends_with_slash_append, Hb.
Qed.

Lemma os_path_join_relative (a b : string) :
  starts_with "/" b = false -> os_path_join a b = a +:+ separator a +:+ b.
Proof.
  intros Hb. unfold os_path_join, separator. rewrite Hb.
  now destruct (negb (nonempty a) || ends_with_slash a).
Qed.

Lemma separator_cases (a : string) : separator a = "" \/ separator a = "/".
Proof.
  unfold separator. destruct (negb (nonempty a) || ends_with_slash a); auto.
Qed.

Lemma os_path_join_under (a b c : string) :
  nonempty b = true -> ends_with_slash b = false -> starts_with "/" c = false ->
  os_path_join (a +:+ separator a +:+ b) c = a +:+ separator a +:+ b +:+ "/" +:+ c.
Proof.
  intros Hb Hslash Hc. rewrite os_path_join_relative by exact Hc.
  rewrite (separator_append a) by now apply nonempty_append.
  rewrite separator_append by exact Hb.
  unfold separator at 2. rewrite Hb, Hslash. cbn [negb orb].
  now rewrite !append_assoc.
Qed.

(** The path that [update_info_plist] builds is the one that
    [verify_share_extension_structure] looks for. *)
Lemma info_plist_path_joined (project_dir : string) :
  os_path_join (os_path_join (os_path_join project_dir "ShareExtension") "Sources")
    "Info.plist" = info_plist_path project_dir.
Proof.
  rewrite (os_path_join_relative project_dir) by reflexivity.
  now rewrite !os_path_join_under by reflexivity.
Qed.

Lemma entitlements_path_joined (project_dir : string) :
  os_path_join (os_path_join project_dir "hamrah-ios") "hamrah-ios.entitlements"
  = entitlements_path project_dir.
Proof.
  rewrite (os_path_join_relative project_dir) by reflexivity.
  now rewrite !os_path_join_under by reflexivity.
Qed.

Lemma pbxproj_path_joined (project_dir : string) :
  os_path_join (os_path_join project_dir "hamrah-ios.xcodeproj") "project.pbxproj"
  = pbxproj_path project_dir.
Proof.
  rewrite (os_path_join_relative project_dir) by reflexivity.
  now rewrite !os_path_join_under by reflexivity.
Qed.

Lemma info_plist_ne_entitlements (project_dir : string) :
  info_plist_path project_dir <> entitlements_path project_dir.
Proof.
  unfold info_plist_path, entitlements_path. intros H.
  do 2 apply append_inv_head in H. discriminate H.
Qed.

Lemma info_plist_ne_pbxproj (project_dir : string) :
  info_plist_path project_dir <> pbxproj_path project_dir.
Proof.
  unfold info_plist_path, pbxproj_path. intros H.
  do 2 apply append_inv_head in H. discriminate H.
Qed.

Lemma info_plist_ne_backup (project_dir : string) :
  info_plist_path project_dir <> pbxproj_path project_dir +:+ ".backup".
Proof.
  unfold info_plist_path, pbxproj_path. rewrite !append_assoc. intros H.
  do 2 apply append_inv_head in H. discriminate H.
Qed.

Lemma backup_ne_entitlements (project_dir : string) :
  pbxproj_path project_dir +:+ ".backup" <> entitlements_path project_dir.
Proof.
  unfold entitlements_path, pbxproj_path. rewrite !append_assoc. intros H.
  do 2 apply append_inv_head in H. discriminate H.
Qed.

End Paths.

(** ** configure_share_extension.py: the checks and the update of the file *)

Section ConfigureFiles.
Import Os ConfigureScript.
Variable loads : string -> option plist.
Variable dumps : plist -> dumped.

Lemma collect_missing_spec (project_dir : string) (files missing : list string)
    (w : world message) :
  collect_missing project_dir files missing w =
  (Return (missing ++
           List.filter
             (fun file_path =>
                match disk w !! os_path_join project_dir file_path with
                | Some _ => false
                | None => true
                end) files)%list, w).
Proof.
  revert missing. induction files as [|file_path files IH]; intros missing.
  - cbn. unfold creturn. now rewrite app_nil_r.
  - cbn [collect_missing List.filter]. unfold cbind, cexists. rewrite IH.
    destruct (disk w !! os_path_join project_dir file_path); cbn; [reflexivity|].
    now rewrite <- app_assoc.
Qed.

Lemma print_missing_spec (missing : list string) (w : world message) :
  print_missing missing w =
  (Return tt, World (disk w) (printed w ++ map Missing_file missing)%list).
Proof.
  revert w. induction missing as [|file_path missing IH]; intros w.
  - cbn. unfold creturn. rewrite app_nil_r. now destruct w.
  - cbn [print_missing map]. unfold cbind, cprint. rewrite IH. cbn.
    now rewrite <- app_assoc.
Qed.

(** X12: [verify_share_extension_structure] never raises and leaves the
    disk as it is; it returns True exactly when none of the four required
    files is missing, and otherwise prints the missing ones, in the order
    of its list, after the heading. *)
Theorem verify_share_extension_structure_spec (project_dir : string)
    (w : world message) :
  verify_share_extension_structure project_dir w =
  match missing_files (disk w) project_dir with
  | [] => (Return true, World (disk w) (printed w ++ [All_required_present]))
  | missing =>
      (Return false,
       World (disk w) (printed w ++ Missing_required_files :: map Missing_file missing))
  end.
Proof.
  unfold verify_share_extension_structure, cbind. rewrite collect_missing_spec.
  cbn [app]. fold (missing_files (disk w) project_dir).
  destruct (missing_files (disk w) project_dir) as [|file_path missing]; [reflexivity|].
  unfold cprint. cbn [disk printed]. rewrite print_missing_spec. cbn [disk printed].
  unfold creturn. now rewrite <- app_assoc.
Qed.

(** No file is missing: the Info.plist of the extension exists. *)
Lemma info_plist_present (project_dir : string) (files : gmap string entry) :
  missing_files files project_dir = [] ->
  exists e, files !! info_plist_path project_dir = Some e.
Proof.
  unfold missing_files, required_files. cbn [List.filter].
  rewrite (os_path_join_relative project_dir "ShareExtension/Sources/Info.plist")
    by reflexivity.
  fold (info_plist_path project_dir).
  destruct (files !! info_plist_path project_dir) as [e|]; [now exists e|].
  destruct (files !! os_path_join project_dir _); discriminate.
Qed.

(** The run of [update_info_plist], by what is at the path of Info.plist. *)
Lemma update_info_plist_run (project_dir : string) (w : world message) :
  update_info_plist loads dumps project_dir w =
  let path := info_plist_path project_dir in
  match disk w !! path with
  | None => (Return false, World (disk w) (printed w ++ [Info_plist_not_found path]))
  | Some Dir => (Raised (OsError (IsADirectoryError path)), w)
  | Some (File bytes) =>
      match loads bytes with
      | None => (Raised (LoadError path), w)
      | Some plist_data =>
          match update_plist_data plist_data with
          | inl e => (Raised e, w)
          | inr updated =>
              match dumps updated with
              | Dumped out =>
                  (Return true,
                   World (<[path := File out]> (disk w))
                     (printed w ++ [Updated_info_plist path]))
              | Partial out =>
                  (Raised (DumpError path),
                   World (<[path := File out]> (disk w)) (printed w))
              end
          end
      end
  end.
Proof.
  unfold update_info_plist. rewrite info_plist_path_joined. cbv zeta.
  unfold cbind, cexists, load_plist, of_sum, dump_plist, cprint, creturn.
  destruct (disk w !! info_plist_path project_dir) as [[bytes|]|] eqn:Hfile;
    cbn; rewrite ?Hfile; try reflexivity.
  destruct (loads bytes) as [plist_data|]; [|reflexivity].
  destruct (update_plist_data plist_data) as [e|updated]; [reflexivity|].
  cbn. rewrite Hfile. now destruct (dumps updated).
Qed.

(** X13: on an Info.plist that holds a well-shaped property list which can
    be written back, [update_info_plist] returns True, the file holds the
    bytes of the merged dictionary, and no other path changes. *)
Theorem update_info_plist_updates (project_dir bytes out : string) (plist_data : plist)
    (w : world message) :
  disk w !! info_plist_path project_dir = Some (File bytes) ->
  loads bytes = Some plist_data ->
  well_shaped plist_data = true ->
  dumps (PDict (new_plist_data (dict_of plist_data))) = Dumped out ->
  update_info_plist loads dumps project_dir w =
  (Return true,
   World (<[info_plist_path project_dir := File out]> (disk w))
     (printed w ++ [Updated_info_plist (info_plist_path project_dir)])).
Proof.
  intros Hfile Hload Hshape Hdump. rewrite update_info_plist_run. cbv zeta.
  rewrite Hfile, Hload.
  destruct plist_data as [| | | | |d]; try discriminate Hshape.
  rewrite (update_plist_data_merged d Hshape). cbn [dict_of] in Hdump.
  now rewrite Hdump.
Qed.

(** X14: [update_info_plist] writes to no path but Info.plist, and leaves
    the whole disk as it is unless it returns True or the writing of the
    property list fails; it returns False only when there is nothing at the
    path of Info.plist. *)
Theorem update_info_plist_writes_only (project_dir : string) (w : world message) :
  let path := info_plist_path project_dir in
  let run := update_info_plist loads dumps project_dir w in
  (forall p, p <> path -> disk (snd run) !! p = disk w !! p)
  /\ (fst run <> Return true -> fst run <> Raised (DumpError path) ->
      disk (snd run) = disk w)
  /\ (fst run = Return false <-> disk w !! path = None).
Proof.
  cbv zeta. rewrite update_info_plist_run. cbv zeta.
  destruct (disk w !! info_plist_path project_dir) as [[bytes|]|] eqn:Hfile.
  - destruct (loads bytes) as [plist_data|];
      [|repeat split; try reflexivity; discriminate].
    destruct (update_plist_data plist_data) as [e|updated];
      [repeat split; try reflexivity; discriminate|].
    destruct (dumps updated) as [out|out]; cbn [fst snd disk].
    + repeat split; try discriminate.
      * intros p Hp. now apply lookup_insert_ne.
      * intros H. now destruct H.
    + repeat split; try discriminate.
      * intros p Hp. now apply lookup_insert_ne.
      * intros _ H. now destruct H.
  - repeat split; try reflexivity; discriminate.
  - repeat split; try reflexivity.
Qed.

(** The run of [check_main_app_configuration]. *)
Lemma check_main_app_configuration_run (project_dir : string) (w : world message) :
  disk (snd (check_main_app_configuration loads project_dir w)) = disk w
  /\ (exists lines,
        printed (snd (check_main_app_configuration loads project_dir w))
        = (printed w ++ Checking_main_app :: lines)%list)
  /\ fst (check_main_app_configuration loads project_dir w) <> Return false
  /\ (fst (check_main_app_configuration loads project_dir w) = Return true
      <-> entitlements_ok loads (disk w) project_dir = true).
Proof.
  unfold check_main_app_configuration. rewrite entitlements_path_joined. cbv zeta.
  unfold entitlements_ok, cbind, cexists, load_plist, of_sum, get_or_empty, cprint, creturn.
  cbn [disk printed fst snd].
  assert (Hdone : forall (r : outcome bool) (ok : bool) (lines : list message),
             r <> Return false -> (r = Return true <-> ok = true) ->
             disk w = disk w
             /\ (exists lines', ((printed w ++ [Checking_main_app]) ++ lines
                                 = printed w ++ Checking_main_app :: lines')%list)
             /\ r <> Return false /\ (r = Return true <-> ok = true)).
  { intros r ok lines Hr Hok. repeat split; try assumption; try apply Hok.
    exists lines. now rewrite <- app_assoc. }
  destruct (disk w !! entitlements_path project_dir) as [[bytes|]|] eqn:Hfile;
    cbn [disk printed fst snd]; rewrite ?Hfile.
  - destruct (loads bytes) as [[| | | | |d]|]; cbn [disk printed fst snd];
      try (rewrite <- (app_nil_r (printed w ++ [Checking_main_app]));
           apply Hdone; [discriminate | split; discriminate]).
    destruct (d !! "com.apple.security.application-groups") as [[s| | | |l|g]|];
      cbn [str_in disk printed fst snd];
      try (rewrite <- (app_nil_r (printed w ++ [Checking_main_app]));
           apply Hdone; [discriminate | split; discriminate]).
    + destruct (contains "group.app.hamrah.ios" s); cbn [disk printed fst snd];
        (apply Hdone; [discriminate | split; reflexivity]).
    + destruct (existsb (is_string "group.app.hamrah.ios") l); cbn [disk printed fst snd];
        (apply Hdone; [discriminate | split; reflexivity]).
    + destruct (g !! "group.app.hamrah.ios"); cbn [disk printed fst snd];
        (apply Hdone; [discriminate | split; reflexivity]).
    + cbn [existsb disk printed fst snd].
      apply Hdone; [discriminate | split; reflexivity].
  - rewrite <- (app_nil_r (printed w ++ [Checking_main_app])).
    apply Hdone; [discriminate | split; discriminate].
  - apply Hdone; [discriminate | split; reflexivity].
Qed.

(** X15: [check_main_app_configuration] only reads: it leaves the disk as
    it is; it never returns False; it returns True exactly when the
    entitlements of the main app are absent or hold a dictionary whose
    application groups can be searched, and raises otherwise. *)
Theorem check_main_app_configuration_reads_only (project_dir : string)
    (w : world message) :
  let run := check_main_app_configuration loads project_dir w in
  disk (snd run) = disk w
  /\ fst run <> Return false
  /\ (fst run = Return true <-> entitlements_ok loads (disk w) project_dir = true)
  /\ (entitlements_ok loads (disk w) project_dir = false -> exists e, fst run = Raised e).
Proof.
  cbv zeta.
  destruct (check_main_app_configuration_run project_dir w) as (Hdisk & _ & Hfalse & Hok).
  repeat split; try assumption; try apply Hok.
  intros Hbad.
  destruct (fst (check_main_app_configuration loads project_dir w)) as [[|]|e] eqn:Hrun.
  - rewrite (proj1 Hok eq_refl) in Hbad. discriminate Hbad.
  - now destruct Hfalse.
  - now exists e.
Qed.

End ConfigureFiles.

Lemma update_info_plist_updates_witness :
  ConfigureScript.update_info_plist sample_loads sample_dumps "/proj"
    (Os.World sample_extension_disk []) =
  (ConfigureScript.Return true,
   Os.World
     (<[info_plist_path "/proj" := Os.File "<plist>...</plist>"]> sample_extension_disk)
     [ConfigureScript.Updated_info_plist (info_plist_path "/proj")]).
Proof.
  apply (update_info_plist_updates sample_loads sample_dumps "/proj" "<plist/>"
           "<plist>...</plist>" (ConfigureScript.PDict empty));
    vm_compute; reflexivity.
Defined.

(** ** configure_share_extension.py: [main] *)

Section ConfigureFrame.
Import Os ConfigureScript.
Variable P : string -> Prop.

Lemma ckeeps_return {A : Type} (a : A) : ckeeps P (creturn a).
Proof. intros w p _. reflexivity. Qed.

Lemma ckeeps_print (m : message) : ckeeps P (cprint m).
Proof. intros w p _. reflexivity. Qed.

Lemma ckeeps_bind {A B : Type} (c : C A) (k : A -> C B) :
  ckeeps P c -> (forall a, ckeeps P (k a)) -> ckeeps P (cbind c k).
Proof.
  intros Hc Hk w p Hp. unfold cbind. specialize (Hc w p Hp).
  destruct (c w) as [[a|e] w']; cbn [fst snd] in *; [|exact Hc].
  rewrite (Hk a w' p Hp). exact Hc.
Qed.

Lemma ckeeps_of_update {A : Type} (c : M ConfigureShareExtension.message A) :
  keeps P c -> ckeeps P (of_update c).
Proof.
  intros Hc w p Hp. unfold of_update.
  specialize (Hc (World (disk w) []) p Hp).
  destruct (c (World (disk w) [])) as [r w']. exact Hc.
Qed.

End ConfigureFrame.

Section ConfigureMain.
Import Os ConfigureScript.
Variable loads : string -> option plist.
Variable dumps : plist -> dumped.

Lemma verify_passes (project_dir : string) (w : world message) :
  missing_files (disk w) project_dir = [] ->
  verify_share_extension_structure project_dir w =
  (Return true, World (disk w) (printed w ++ [All_required_present])).
Proof.
  intros Hnone.
  unfold verify_share_extension_structure, cbind. rewrite collect_missing_spec.
  cbn [app]. fold (missing_files (disk w) project_dir). now rewrite Hnone.
Qed.

Lemma verify_fails (project_dir : string) (w : world message) :
  missing_files (disk w) project_dir <> [] ->
  verify_share_extension_structure project_dir w =
  (Return false,
   World (disk w)
     (printed w ++ Missing_required_files
        :: map Missing_file (missing_files (disk w) project_dir))).
Proof.
  intros Hsome.
  unfold verify_share_extension_structure, cbind. rewrite collect_missing_spec.
  cbn [app]. fold (missing_files (disk w) project_dir).
  destruct (missing_files (disk w) project_dir) as [|file_path missing];
    [now destruct Hsome|].
  unfold cprint. cbn [disk printed]. rewrite print_missing_spec. cbn [disk printed].
  unfold creturn. now rewrite <- app_assoc.
Qed.

Lemma verify_keeps_disk (project_dir : string) (w : world message) :
  disk (snd (verify_share_extension_structure project_dir w)) = disk w.
Proof.
  destruct (missing_files (disk w) project_dir) as [|file_path missing] eqn:Hmissing.
  - now rewrite verify_passes.
  - now rewrite verify_fails by (rewrite Hmissing; discriminate).
Qed.

Lemma update_info_plist_keeps (project_dir : string) (w : world message) (p : string) :
  p <> info_plist_path project_dir ->
  disk (snd (update_info_plist loads dumps project_dir w)) !! p = disk w !! p.
Proof.
  intros Hp. rewrite update_info_plist_run. cbv zeta.
  destruct (disk w !! info_plist_path project_dir) as [[bytes|]|]; try reflexivity.
  destruct (loads bytes) as [plist_data|]; [|reflexivity].
  destruct (update_plist_data plist_data) as [e|updated]; [reflexivity|].
  destruct (dumps updated) as [out|out]; cbn [snd disk];
    now apply lookup_insert_ne, not_eq_sym.
Qed.

(** X16: when a required file is missing, [main] returns False after the
    report of the missing files, and the disk is as it was. *)
Theorem configure_main_stops_on_missing_files (project_dir : string)
    (w : world message) :
  missing_files (disk w) project_dir <> [] ->
  main loads dumps project_dir w =
  (Return false,
   World (disk w)
     (printed w ++ Configuring :: Missing_required_files
        :: map Missing_file (missing_files (disk w) project_dir)
        ++ [Ensure_files_in_place])).
Proof.
  intros Hsome. unfold main, cbind at 1, cprint at 1.
  unfold cbind at 1. rewrite verify_fails by exact Hsome.
  cbn [negb]. unfold cbind, cprint, creturn. cbn [disk printed].
  f_equal. f_equal. rewrite <- !app_assoc. reflexivity.
Qed.

(** The run of [update_project_configuration] inside [main]. *)
Lemma of_update_run (project_dir : string) (w : world message) :
  of_update (ConfigureShareExtension.update_project_configuration project_dir) w =
  let pbxproj := pbxproj_path project_dir in
  let backup := pbxproj +:+ ".backup" in
  match disk w !! pbxproj with
  | None =>
      (Return false,
       World (disk w)
         (printed w ++ [Project (ConfigureShareExtension.Could_not_find pbxproj)]))
  | Some Dir => (Raised (OsError (IsADirectoryError pbxproj)), w)
  | Some (File content) =>
      if utf8_valid content then
        match disk w !! backup with
        | Some Dir => (Raised (OsError (IsADirectoryError backup)), w)
        | _ =>
            (Return true,
             World (<[backup := File (universal_newlines content)]> (disk w))
               (printed w
                  ++ [Project (ConfigureShareExtension.Backed_up_original backup);
                      Project ConfigureShareExtension.Update_completed]))
        end
      else (Raised (OsError (UnicodeDecodeError pbxproj)), w)
  end.
Proof.
  unfold of_update, ConfigureShareExtension.update_project_configuration.
  rewrite pbxproj_path_joined. cbv zeta.
  unfold bind, os_path_exists, read_text, write_text, print, ret. cbn [disk printed].
  destruct (disk w !! pbxproj_path project_dir) as [[content|]|] eqn:Hfile;
    cbn [negb disk printed]; rewrite ?Hfile; cbn [disk printed map app].
  - destruct (utf8_valid content); cbn [disk printed map app].
    + destruct (disk w !! (pbxproj_path project_dir +:+ ".backup")) as [[c|]|];
        cbn [disk printed map app]; rewrite ?app_nil_r; try reflexivity.
      now destruct w.
    + rewrite app_nil_r. now destruct w.
  - rewrite app_nil_r. now destruct w.
  - reflexivity.
Qed.

(** The run of [main] up to the check of the main app, when the files are
    there and Info.plist can be updated. *)
Lemma main_run_updated (project_dir bytes out : string) (plist_data : plist)
    (w : world message) :
  missing_files (disk w) project_dir = [] ->
  disk w !! info_plist_path project_dir = Some (File bytes) ->
  loads bytes = Some plist_data ->
  well_shaped plist_data = true ->
  dumps (PDict (new_plist_data (dict_of plist_data))) = Dumped out ->
  main loads dumps project_dir w =
  cbind (check_main_app_configuration loads project_dir)
    (fun _ =>
       cbind (of_update (ConfigureShareExtension.update_project_configuration project_dir))
         (fun _ => cbind (cprint Configuration_completed) (fun _ => creturn true)))
    (World (<[info_plist_path project_dir := File out]> (disk w))
       (printed w ++ [Configuring; All_required_present;
                      Updated_info_plist (info_plist_path project_dir)])).
Proof.
  intros Hnone Hfile Hload Hshape Hdump. unfold main, cbind at 1, cprint at 1.
  unfold cbind at 1. rewrite verify_passes by exact Hnone.
  cbn [negb]. unfold cbind at 1. rewrite update_info_plist_run. cbv zeta.
  cbn [disk printed]. rewrite Hfile, Hload.
  destruct plist_data as [| | | | |d]; try discriminate Hshape.
  rewrite (update_plist_data_merged d Hshape). cbn [dict_of] in Hdump.
  rewrite Hdump. cbn [negb]. now rewrite <- !app_assoc.
Qed.

Lemma entitlements_ok_after_update (project_dir : string) (files : gmap string entry)
    (e : entry) :
  entitlements_ok loads (<[info_plist_path project_dir := e]> files) project_dir
  = entitlements_ok loads files project_dir.
Proof.
  unfold entitlements_ok.
  now rewrite lookup_insert_ne by apply info_plist_ne_entitlements.
Qed.

(** The run of [main] when the files are there, Info.plist can be updated
    and the entitlements of the main app can be read. *)
Lemma main_run_checked (project_dir bytes out : string) (plist_data : plist)
    (w : world message) :
  missing_files (disk w) project_dir = [] ->
  disk w !! info_plist_path project_dir = Some (File bytes) ->
  loads bytes = Some plist_data ->
  well_shaped plist_data = true ->
  dumps (PDict (new_plist_data (dict_of plist_data))) = Dumped out ->
  entitlements_ok loads (disk w) project_dir = true ->
  exists lines,
    main loads dumps project_dir w =
    cbind (of_update (ConfigureShareExtension.update_project_configuration project_dir))
      (fun _ => cbind (cprint Configuration_completed) (fun _ => creturn true))
      (World (<[info_plist_path project_dir := File out]> (disk w)) lines).
Proof.
  intros Hnone Hfile Hload Hshape Hdump Hok.
  rewrite (main_run_updated project_dir bytes out plist_data w) by assumption.
  set (w2 := World (<[info_plist_path project_dir := File out]> (disk w)) _).
  destruct (check_main_app_configuration_run loads project_dir w2)
    as (Hdisk & _ & _ & Htrue).
  unfold cbind at 1.
  destruct (check_main_app_configuration loads project_dir w2) as [r w3].
  cbn [fst snd] in Hdisk, Htrue.
  rewrite (proj2 Htrue)
    by (unfold w2; cbn [disk]; now rewrite entitlements_ok_after_update).
  exists (printed w3). f_equal. destruct w3 as [files lines]. cbn [disk] in Hdisk.
  now rewrite Hdisk.
Qed.

(** X17: when the files are there, Info.plist can be updated, the
    entitlements of the main app can be read, the project descriptor is
    absent or a file of UTF-8 bytes, and its backup is not a directory,
    [main] returns True; the disk then differs from the one before by
    Info.plist, which holds the bytes of the merged dictionary, and by the
    backup of the descriptor, when there is a descriptor. *)
Theorem configure_main_completes (project_dir bytes out : string) (plist_data : plist)
    (w : world message) :
  missing_files (disk w) project_dir = [] ->
  disk w !! info_plist_path project_dir = Some (File bytes) ->
  loads bytes = Some plist_data ->
  well_shaped plist_data = true ->
  dumps (PDict (new_plist_data (dict_of plist_data))) = Dumped out ->
  entitlements_ok loads (disk w) project_dir = true ->
  disk w !! pbxproj_path project_dir <> Some Dir ->
  (forall content, disk w !! pbxproj_path project_dir = Some (File content) ->
                   utf8_valid content = true) ->
  disk w !! (pbxproj_path project_dir +:+ ".backup") <> Some Dir ->
  fst (main loads dumps project_dir w) = Return true
  /\ disk (snd (main loads dumps project_dir w)) =
     match disk w !! pbxproj_path project_dir with
     | Some (File content) =>
         <[pbxproj_path project_dir +:+ ".backup" := File (universal_newlines content)]>
           (<[info_plist_path project_dir := File out]> (disk w))
     | _ => <[info_plist_path project_dir := File out]> (disk w)
     end
  /\ last (printed (snd (main loads dumps project_dir w))) = Some Configuration_completed.
Proof.
  intros Hnone Hfile Hload Hshape Hdump Hok Hpbx Hvalid Hbackup.
  destruct (main_run_checked project_dir bytes out plist_data w) as [lines ->];
    try assumption.
  unfold cbind. rewrite of_update_run. cbv zeta. cbn [disk printed].
  rewrite (lookup_insert_ne _ _ (pbxproj_path project_dir))
    by apply info_plist_ne_pbxproj.
  rewrite (lookup_insert_ne _ _ (pbxproj_path project_dir +:+ ".backup"))
    by apply info_plist_ne_backup.
  destruct (disk w !! pbxproj_path project_dir) as [[content|]|];
    [|now destruct Hpbx|].
  - rewrite (Hvalid content eq_refl).
    destruct (disk w !! (pbxproj_path project_dir +:+ ".backup")) as [[c|]|];
      [|now destruct Hbackup|];
      unfold cbind, cprint, creturn; cbn [fst snd disk printed];
      (split; [reflexivity|]); (split; [reflexivity|]); apply last_snoc.
  - unfold cbind, cprint, creturn; cbn [fst snd disk printed].
    split; [reflexivity|]. split; [reflexivity|]. apply last_snoc.
Qed.

(** X18: [main] does not look at the result of
    [update_project_configuration]: without a project descriptor it still
    returns True, and the report that the descriptor could not be found is
    followed by the report of completion. *)
Theorem configure_main_ignores_missing_descriptor (project_dir bytes out : string)
    (plist_data : plist) (w : world message) :
  missing_files (disk w) project_dir = [] ->
  disk w !! info_plist_path project_dir = Some (File bytes) ->
  loads bytes = Some plist_data ->
  well_shaped plist_data = true ->
  dumps (PDict (new_plist_data (dict_of plist_data))) = Dumped out ->
  entitlements_ok loads (disk w) project_dir = true ->
  disk w !! pbxproj_path project_dir = None ->
  fst (main loads dumps project_dir w) = Return true
  /\ exists lines,
       printed (snd (main loads dumps project_dir w)) =
       (lines ++ [Project (ConfigureShareExtension.Could_not_find
                             (pbxproj_path project_dir));
                  Configuration_completed])%list.
Proof.
  intros Hnone Hfile Hload Hshape Hdump Hok Hpbx.
  destruct (main_run_checked project_dir bytes out plist_data w) as [lines ->];
    try assumption.
  unfold cbind. rewrite of_update_run. cbv zeta. cbn [disk printed].
  rewrite (lookup_insert_ne _ _ (pbxproj_path project_dir))
    by apply info_plist_ne_pbxproj.
  rewrite Hpbx. unfold cbind, cprint, creturn; cbn [fst snd disk printed].
  split; [reflexivity|]. exists lines. now rewrite <- app_assoc.
Qed.

(** X21: [main] is not atomic: when the entitlements of the main app cannot
    be read, it raises after Info.plist has been rewritten, and the disk
    holds the new Info.plist. *)
Theorem configure_main_raises_after_update (project_dir bytes out : string)
    (plist_data : plist) (w : world message) :
  missing_files (disk w) project_dir = [] ->
  disk w !! info_plist_path project_dir = Some (File bytes) ->
  loads bytes = Some plist_data ->
  well_shaped plist_data = true ->
  dumps (PDict (new_plist_data (dict_of plist_data))) = Dumped out ->
  entitlements_ok loads (disk w) project_dir = false ->
  (exists e, fst (main loads dumps project_dir w) = Raised e)
  /\ disk (snd (main loads dumps project_dir w))
     = <[info_plist_path project_dir := File out]> (disk w).
Proof.
  intros Hnone Hfile Hload Hshape Hdump Hbad.
  rewrite (main_run_updated project_dir bytes out plist_data w) by assumption.
  set (w2 := World (<[info_plist_path project_dir := File out]> (disk w)) _).
  destruct (check_main_app_configuration_run loads project_dir w2)
    as (Hdisk & _ & Hfalse & Htrue).
  unfold cbind.
  destruct (check_main_app_configuration loads project_dir w2) as [[[|]|e] w3];
    cbn [fst snd] in *.
  - pose proof (proj1 Htrue eq_refl) as Hok. unfold w2 in Hok. cbn [disk] in Hok.
    rewrite entitlements_ok_after_update in Hok. congruence.
  - now destruct Hfalse.
  - split; [now exists e | exact Hdisk].
Qed.

(** X19: [main] returns False exactly when a required file is missing: an
    Info.plist that cannot be updated makes it raise, never return False. *)
Theorem configure_main_false_iff_missing (project_dir : string) (w : world message) :
  fst (main loads dumps project_dir w) = Return false
  <-> missing_files (disk w) project_dir <> [].
Proof.
  split.
  - intros Hfalse Hnone.
    destruct (info_plist_present project_dir (disk w) Hnone) as [e He].
    revert Hfalse. unfold main, cbind at 1, cprint at 1.
    unfold cbind at 1. rewrite verify_passes by exact Hnone.
    cbn [negb]. unfold cbind at 1. rewrite update_info_plist_run. cbv zeta.
    cbn [disk printed]. rewrite He.
    destruct e as [bytes|]; [|discriminate].
    destruct (loads bytes) as [plist_data|]; [|discriminate].
    destruct (update_plist_data plist_data) as [err|updated]; [discriminate|].
    destruct (dumps updated) as [out|out]; [|discriminate].
    cbn [negb]. unfold cbind at 1.
    set (w2 := World _ _).
    destruct (check_main_app_configuration loads project_dir w2) as [[r|err] w3];
      [|discriminate].
    unfold cbind at 1.
    destruct (of_update _ w3) as [[r'|err] w4]; [|discriminate].
    unfold cbind, cprint, creturn. discriminate.
  - intros Hsome. unfold main, cbind at 1, cprint at 1.
    unfold cbind at 1. rewrite verify_fails by exact Hsome. reflexivity.
Qed.

(** X20: whatever the disk holds and however it ends, [main] writes to no
    path but the Info.plist of the extension and the backup of the project
    descriptor. *)
Theorem configure_main_writes_only (project_dir : string) (w : world message)
    (p : string) :
  p <> info_plist_path project_dir ->
  p <> pbxproj_path project_dir +:+ ".backup" ->
  disk (snd (main loads dumps project_dir w)) !! p = disk w !! p.
Proof.
  intros Hinfo Hbackup.
  set (P := fun q => q = info_plist_path project_dir
                     \/ q = pbxproj_path project_dir +:+ ".backup").
  assert (Hp : ~ P p) by (intros [-> | ->]; [now apply Hinfo | now apply Hbackup]).
  clear Hinfo Hbackup. revert w p Hp. change (ckeeps P (main loads dumps project_dir)).
  unfold main.
  apply ckeeps_bind; [apply ckeeps_print|]. intros _.
  apply ckeeps_bind.
  { intros w p _. now rewrite verify_keeps_disk. }
  intros verified. destruct verified; cbn [negb].
  - apply ckeeps_bind.
    { intros w p Hp. apply update_info_plist_keeps. intros ->. apply Hp. now left. }
    intros updated. destruct updated; cbn [negb].
    + apply ckeeps_bind.
      { intros w p _.
        now destruct (check_main_app_configuration_run loads project_dir w) as [-> _]. }
      intros _. apply ckeeps_bind.
      { apply ckeeps_of_update.
        unfold ConfigureShareExtension.update_project_configuration.
        rewrite pbxproj_path_joined.
        apply keeps_bind; [apply keeps_exists|]. intros found.
        destruct found; cbn [negb].
        - apply keeps_bind; [apply keeps_read|]. intros content.
          apply keeps_bind; [apply keeps_write; now right|]. intros _.
          apply keeps_bind; [apply keeps_print|]. intros _.
          apply keeps_bind; [apply keeps_print|]. intros _. apply keeps_ret.
        - apply keeps_bind; [apply keeps_print|]. intros _. apply keeps_ret. }
      intros _. apply ckeeps_bind; [apply ckeeps_print|]. intros _.
      apply ckeeps_return.
    + apply ckeeps_bind; [apply ckeeps_print|]. intros _. apply ckeeps_return.
  - apply ckeeps_bind; [apply ckeeps_print|]. intros _. apply ckeeps_return.
Qed.

End ConfigureMain.

Lemma configure_main_stops_on_missing_files_witness :
  ConfigureScript.main sample_loads sample_dumps "/proj" (Os.World empty []) =
  (ConfigureScript.Return false,
   Os.World empty
     [ ConfigureScript.Configuring; ConfigureScript.Missing_required_files;
       ConfigureScript.Missing_file "ShareExtension/Sources/ShareViewController.swift";
       ConfigureScript.Missing_file "ShareExtension/Sources/Info.plist";
       ConfigureScript.Missing_file "ShareExtension/Sources/ShareExtension.entitlements";
       ConfigureScript.Missing_file
         "ShareExtension/Sources/Utilities/ShareExtensionDataStack.swift";
       ConfigureScript.Ensure_files_in_place ]).
Proof.
  etransitivity.
  - apply (configure_main_stops_on_missing_files sample_loads sample_dumps "/proj"
             (Os.World empty [])).
    vm_compute. discriminate.
  - vm_compute. reflexivity.
Defined.

Lemma configure_main_completes_witness :
  fst (ConfigureScript.main sample_loads sample_dumps "/proj"
         (Os.World sample_configured_disk [])) = ConfigureScript.Return true
  /\ Os.disk (snd (ConfigureScript.main sample_loads sample_dumps "/proj"
                     (Os.World sample_configured_disk []))) =
     match sample_configured_disk !! pbxproj_path "/proj" with
     | Some (Os.File content) =>
         <[pbxproj_path "/proj" +:+ ".backup" := Os.File (Os.universal_newlines content)]>
           (<[info_plist_path "/proj" := Os.File "<plist>...</plist>"]>
              sample_configured_disk)
     | _ => <[info_plist_path "/proj" := Os.File "<plist>...</plist>"]>
              sample_configured_disk
     end
  /\ last (Os.printed (snd (ConfigureScript.main sample_loads sample_dumps "/proj"
                              (Os.World sample_configured_disk []))))
     = Some ConfigureScript.Configuration_completed.
Proof.
  apply (configure_main_completes sample_loads sample_dumps "/proj" "<plist/>"
           "<plist>...</plist>" (ConfigureScript.PDict empty)
           (Os.World sample_configured_disk []));
    try (vm_compute; first [reflexivity | discriminate]).
  intros content H. vm_compute in H. injection H as <-. vm_compute. reflexivity.
Defined.

Lemma configure_main_ignores_missing_descriptor_witness :
  fst (ConfigureScript.main sample_loads sample_dumps "/proj"
         (Os.World sample_extension_disk [])) = ConfigureScript.Return true
  /\ exists lines,
       Os.printed (snd (ConfigureScript.main sample_loads sample_dumps "/proj"
                          (Os.World sample_extension_disk []))) =
       (lines ++ [ConfigureScript.Project
                    (ConfigureShareExtension.Could_not_find (pbxproj_path "/proj"));
                  ConfigureScript.Configuration_completed])%list.
Proof.
  apply (configure_main_ignores_missing_descriptor sample_loads sample_dumps "/proj"
           "<plist/>" "<plist>...</plist>" (ConfigureScript.PDict empty)
           (Os.World sample_extension_disk []));
    vm_compute; reflexivity.
Defined.

Lemma configure_main_raises_after_update_witness :
  (exists e, fst (ConfigureScript.main sample_loads sample_dumps "/proj"
                    (Os.World sample_unreadable_disk [])) = ConfigureScript.Raised e)
  /\ Os.disk (snd (ConfigureScript.main sample_loads sample_dumps "/proj"
                     (Os.World sample_unreadable_disk [])))
     = <[info_plist_path "/proj" := Os.File "<plist>...</plist>"]> sample_unreadable_disk.
Proof.
  apply (configure_main_raises_after_update sample_loads sample_dumps "/proj" "<plist/>"
           "<plist>...</plist>" (ConfigureScript.PDict empty)
           (Os.World sample_unreadable_disk []));
    vm_compute; reflexivity.
Defined.

Lemma configure_main_writes_only_witness :
  Os.disk (snd (ConfigureScript.main sample_loads sample_dumps "/proj"
                  (Os.World sample_configured_disk [])))
    !! "/proj/hamrah-ios.xcodeproj/project.pbxproj"
  = sample_configured_disk !! "/proj/hamrah-ios.xcodeproj/project.pbxproj".
Proof.
  apply (configure_main_writes_only sample_loads sample_dumps "/proj"
           (Os.World sample_configured_disk [])
           "/proj/hamrah-ios.xcodeproj/project.pbxproj");
    vm_compute; discriminate.
Defined.

(** ** validate_implementation.py: the reports *)

Section ValidateReports.
Import Os ValidateImplementation.

Lemma search_all_report (file_path content : string) (search_strings : list string) :
  forall (all_found : bool) (w : world message),
    search_all file_path content search_strings all_found w =
    (Ok (all_found && forallb (fun s => contains s content) search_strings),
     World (disk w)
       (printed w ++ map (search_report file_path content) search_strings)).
Proof.
  induction search_strings as [|s search_strings IH]; intros all_found w.
  - cbn. unfold ret. rewrite app_nil_r, andb_true_r. now destruct w.
  - cbn [search_all forallb map]. unfold search_report at 1.
    destruct (contains s content); unfold bind, print; rewrite IH; cbn [disk printed].
    + now rewrite <- app_assoc.
    + rewrite <- app_assoc. now rewrite andb_false_r.
Qed.

(** X22: [check_file_contains] never raises and never changes the disk.
    Without anything at the path it returns False after one line; for a
    directory, and for a file whose bytes are not UTF-8, it returns False
    after the line of the error of the read (the exception is caught); for
    a file of UTF-8 bytes it prints one line for every search string, in
    order and without stopping at the first one that is missing, and returns
    True exactly when the text read holds them all. *)
Theorem check_file_contains_report (file_path : string) (search_strings : list string)
    (w : world message) :
  check_file_contains file_path search_strings w =
  match disk w !! file_path with
  | None => (Ok false, World (disk w) (printed w ++ [File_not_found file_path]))
  | Some Dir =>
      (Ok false,
       World (disk w)
         (printed w ++ [Error_reading file_path (IsADirectoryError file_path)]))
  | Some (File bytes) =>
      if utf8_valid bytes then
        (Ok (forallb (fun s => contains s (universal_newlines bytes)) search_strings),
         World (disk w)
           (printed w
              ++ map (search_report file_path (universal_newlines bytes))
                   search_strings))
      else
        (Ok false,
         World (disk w)
           (printed w ++ [Error_reading file_path (UnicodeDecodeError file_path)]))
  end.
Proof.
  unfold check_file_contains, bind at 1, os_path_exists.
  destruct (disk w !! file_path) as [[bytes|]|] eqn:Hfile; cbn [negb].
  - unfold try_except, bind, read_text. rewrite Hfile.
    destruct (utf8_valid bytes); [|reflexivity].
    now rewrite search_all_report.
  - unfold try_except, bind, read_text, print, ret. now rewrite Hfile.
  - reflexivity.
Qed.

Ltac report_files_step :=
  match goal with
  | |- context [bind (check_files ?fs ?acc) ?k ?w0] =>
      let l := fresh "l" in
      let H := fresh "H" in
      destruct (check_files_spec fs acc w0) as [l H];
      rewrite (bind_steady (check_files fs acc) k w0 _ l H); clear H;
      cbv beta; cbn [disk printed]
  end.

Ltac report_contains_step :=
  match goal with
  | |- context [bind (check_file_contains ?p ?strs) ?k ?w0] =>
      let l := fresh "l" in
      let H := fresh "H" in
      destruct (check_file_contains_spec p strs w0) as [l H];
      rewrite (bind_steady (check_file_contains p strs) k w0 _ l H); clear H;
      cbv beta; cbn [disk printed]
  end.

(** The run of [main]: its value, its disk, and its last line. *)
Lemma validate_main_report (w : world message) :
  exists lines,
    main w =
    (Ok (if validation_ok (disk w) then 0%N else 1%N),
     World (disk w)
       (lines ++ [if validation_ok (disk w) then All_checks_passed
                  else Validation_failed])).
Proof.
  unfold main. cbv zeta.
  rewrite !bind_print. simpl disk. simpl printed.
  report_files_step. rewrite bind_print. simpl disk. simpl printed.
  report_files_step. rewrite bind_print. simpl disk. simpl printed.
  report_files_step. rewrite bind_print. simpl disk. simpl printed.
  report_contains_step. report_contains_step. report_contains_step.
  cbn [disk printed]. unfold validation_ok. cbv zeta. rewrite !forallb_app.
  generalize (forallb (fun f => path_exists (disk w) (os_path_join base_dir f)) core_files).
  generalize (forallb (fun f => path_exists (disk w) (os_path_join base_dir f)) test_files).
  generalize (forallb (fun f => path_exists (disk w) (os_path_join base_dir f)) doc_files).
  generalize (file_contains_all (disk w)
                (os_path_join base_dir "hamrah-ios/ProgressiveAuthView.swift")
                progressive_auth_content).
  generalize (file_contains_all (disk w)
                (os_path_join base_dir "hamrah-ios/BiometricLaunchView.swift")
                biometric_launch_content).
  generalize (file_contains_all (disk w)
                (os_path_join base_dir "hamrah-ios-tests/BiometricLaunchTests.swift")
                test_content).
  intros [] [] [] [] [] []; unfold bind, print, ret; cbn [disk printed andb negb];
    eexists; reflexivity.
Qed.

(** X23: [validate_implementation.main] only reads and never raises,
    whatever the disk holds: the disk after the run is the disk before it,
    and the last line printed agrees with the value returned: the success
    line with 0, the failure line with 1. *)
Theorem validate_main_reads_only (w : world message) :
  disk (snd (main w)) = disk w
  /\ ((fst (main w) = Ok 0%N
       /\ last (printed (snd (main w))) = Some All_checks_passed)
      \/ (fst (main w) = Ok 1%N
          /\ last (printed (snd (main w))) = Some Validation_failed)).
Proof.
  destruct (validate_main_report w) as [lines ->]. cbn [fst snd disk printed].
  split; [reflexivity|].
  destruct (validation_ok (disk w)); [left | right];
    (split; [reflexivity | apply last_snoc]).
Qed.

End ValidateReports.
